(** * BrowserFrameUtility: frame tree teardown and navigation

    A shallow embedding of
    [packages/happy-dom/src/browser/BrowserFrameUtility.ts].

    Frames, windows, pages, contexts and browsers are JavaScript objects
    that the utility reaches through references and mutates in place, so
    they live in an object store ([World]) and are named by identifiers.
    A method is a function from the store to a [Completion]: it returns
    normally with a value and the new store, or it throws with the store
    as the throw left it. *)

From Stdlib Require Import List String Ascii Bool Arith Lia.
Import ListNotations.
Local Open Scope list_scope.
Local Open Scope string_scope.

(** ** Object store *)

Definition FrameId := nat.
Definition WinId := nat.
Definition PageId := nat.
Definition ContextId := nat.
Definition BrowserId := nat.
Definition ConsoleId := nat.

(** What the code reads of a WHATWG URL object ([url.URL] of Node, and
    [Location], which the code passes where a URL is expected). *)
Record URLRecord := {
  href : string;
  origin : string;
  hostname : string
}.

Inductive DOMExceptionNameEnum := uriMismatchError.

Inductive Error :=
| TypeError (message : string)
| DOMException (message : string) (name : DOMExceptionNameEnum)
| OtherError (message : string).

(** [IResponse]: [text ()] either resolves with the body or rejects. *)
Record Response := {
  responseURL : string;
  text : Error + string
}.

Record RequestInit := {
  init_referrer : option string;
  init_referrerPolicy : option string
}.

(** [IGoToOptions]. *)
Record GoToOptions := {
  referrer : option string;
  referrerPolicy : option string
}.

Record Settings := {
  browserNavigation : list string;
  disableJavaScriptEvaluation : bool;
  disableErrorCapturing : bool
}.

Record Browser := {
  settings : Settings;
  defaultContext : ContextId
}.

Record BrowserContext := {
  browser : BrowserId;
  pages : list PageId
}.

Record Page := {
  context : ContextId;
  mainFrame : FrameId;
  console : ConsoleId
}.

(** The fields of a window the utility touches: [closed], [location],
    [document.referrer] and the document itself, kept as the markup that
    was written into it (empty for the blank document of a new
    window). *)
Record Window := {
  closed : bool;
  location : URLRecord;
  document_referrer : string;
  document_content : string
}.

(** [frame instanceof DetachedBrowserFrame] *)
Inductive FrameClass := BrowserFrame | DetachedBrowserFrame.

(** Modelled from the spec: the classes implementing [IBrowserFrame] are
    not part of the file.  A frame holds its window, parent, children
    and page; [window] and [page] are nullable: [closeFrame] stores
    [null] in both.  [url] and [content] are not stored in the frame:
    [url] is the frame's current location, that of its window, and
    [content] is the document of that window, which [goto] replaces
    (see [frameUrl], [setFrameUrl] and [setFrameContent]). *)
Record Frame := {
  frameClass : FrameClass;
  window : option WinId;
  parentFrame : option FrameId;
  childFrames : list FrameId;
  page : option PageId
}.

(** The closure handed to [setTimeout] by the [javascript:] branch of
    [goto]; it captures [frame], [url] and [readyStateManager]. *)
Inductive TimerCallback :=
| JavaScriptURL (frame : FrameId) (url : string) (readyStateManager : WinId).

(** Calls into collaborators whose code is elsewhere.  The store records
    them in program order. *)
Inductive Event :=
| EvDestroyTasks (frame : FrameId)
    (* frame._asyncTaskManager.destroy() *)
| EvRemoveSettings (win : WinId)
    (* WindowBrowserSettingsReader.removeSettings(window) *)
| EvStartTask (win : WinId)
    (* window._readyStateManager.startTask() *)
| EvEndTask (win : WinId)
    (* window._readyStateManager.endTask() *)
| EvFetch (win : WinId) (url : string) (init : RequestInit)
    (* window.fetch(url, init) *)
| EvDispatchError (win : WinId) (error : Error)
    (* WindowErrorUtility.dispatchError(window, error) *)
| EvEval (win : WinId) (code : string).
    (* window.eval(code) *)

Record World := {
  frames : FrameId -> Frame;
  windows : WinId -> Window;
  nextWindow : WinId;
  pageOf : PageId -> Page;
  contextOf : ContextId -> BrowserContext;
  browserOf : BrowserId -> Browser;
  timers : list (WinId * TimerCallback);
  log : list Event
}.

(** ** Completions *)

Inductive Completion (A : Type) :=
| Normal (a : A) (w : World)
| Throws (e : Error) (w : World)
| OutOfFuel.
Arguments Normal {A} a w.
Arguments Throws {A} e w.
Arguments OutOfFuel {A}.

Definition M (A : Type) := World -> Completion A.

Definition ret {A} (a : A) : M A := fun w => Normal a w.
Definition throw {A} (e : Error) : M A := fun w => Throws e w.
Definition bind {A B} (m : M A) (k : A -> M B) : M B :=
  fun w => match m w with
           | Normal a w' => k a w'
           | Throws e w' => Throws e w'
           | OutOfFuel => OutOfFuel
           end.
Definition gets {A} (f : World -> A) : M A := fun w => Normal (f w) w.
Definition modify (f : World -> World) : M unit := fun w => Normal tt (f w).

Declare Scope js_scope.
Delimit Scope js_scope with js.
Notation "x <- m ;; k" := (bind m (fun x => k))
  (at level 61, m at next level, right associativity) : js_scope.
Notation "m ;; k" := (bind m (fun _ => k))
  (at level 61, right associativity) : js_scope.
Local Open Scope js_scope.

(** Reading a property of [null]. *)
Definition nullDereference : Error :=
  TypeError "Cannot read properties of null".

Definition nonNull {A} (o : option A) : M A :=
  match o with
  | Some a => ret a
  | None => throw nullDereference
  end.

(** ** Store updates *)

Definition updFrame (f : FrameId) (g : Frame -> Frame) (w : World) : World :=
  {| frames := fun x => if Nat.eqb x f then g (frames w f) else frames w x;
     windows := windows w;
     nextWindow := nextWindow w;
     pageOf := pageOf w;
     contextOf := contextOf w;
     browserOf := browserOf w;
     timers := timers w;
     log := log w |}.

Definition updWindow (i : WinId) (g : Window -> Window) (w : World) : World :=
  {| frames := frames w;
     windows := fun x => if Nat.eqb x i then g (windows w i) else windows w x;
     nextWindow := nextWindow w;
     pageOf := pageOf w;
     contextOf := contextOf w;
     browserOf := browserOf w;
     timers := timers w;
     log := log w |}.

Definition emit (e : Event) (w : World) : World :=
  {| frames := frames w;
     windows := windows w;
     nextWindow := nextWindow w;
     pageOf := pageOf w;
     contextOf := contextOf w;
     browserOf := browserOf w;
     timers := timers w;
     log := (log w ++ [e])%list |}.

Definition setWindow (o : option WinId) (fr : Frame) : Frame :=
  {| frameClass := frameClass fr; window := o; parentFrame := parentFrame fr;
     childFrames := childFrames fr; page := page fr |}.

Definition setPage (o : option PageId) (fr : Frame) : Frame :=
  {| frameClass := frameClass fr; window := window fr;
     parentFrame := parentFrame fr; childFrames := childFrames fr;
     page := o |}.

Definition setChildFrames (l : list FrameId) (fr : Frame) : Frame :=
  {| frameClass := frameClass fr; window := window fr;
     parentFrame := parentFrame fr; childFrames := l; page := page fr |}.

Definition setClosed (b : bool) (win : Window) : Window :=
  {| closed := b; location := location win;
     document_referrer := document_referrer win;
     document_content := document_content win |}.

Definition setReferrer (r : string) (win : Window) : Window :=
  {| closed := closed win; location := location win; document_referrer := r;
     document_content := document_content win |}.

Definition setLocation (l : URLRecord) (win : Window) : Window :=
  {| closed := closed win; location := l;
     document_referrer := document_referrer win;
     document_content := document_content win |}.

Definition setDocumentContent (c : string) (win : Window) : Window :=
  {| closed := closed win; location := location win;
     document_referrer := document_referrer win; document_content := c |}.

(** ** Arrays *)

(** [array.indexOf(x)], [None] for [-1]. *)
Fixpoint indexOf (x : FrameId) (l : list FrameId) : option nat :=
  match l with
  | [] => None
  | y :: l' => if Nat.eqb y x then Some 0
               else match indexOf x l' with
                    | Some i => Some (S i)
                    | None => None
                    end
  end.

(** [array.splice(index, 1)] *)
Definition splice1 (index : nat) (l : list FrameId) : list FrameId :=
  (firstn index l ++ skipn (S index) l)%list.

(** [array.includes(x)] on an array of strings. *)
Definition includes (l : list string) (x : string) : bool :=
  existsb (String.eqb x) l.

(** [for (const childFrame of frame.childFrames) body(childFrame)].

    The array iterator keeps the array and an index; every step reads the
    array as it is then: it stops when the index has reached the current
    length, and yields the element now at the index otherwise.  The array
    is the one the frame holds (nothing reassigns [childFrames] while
    such a loop runs), so the loop reads it from the store at each step
    and sees what the body removed. *)
Fixpoint forOfChildFrames (steps : nat) (body : FrameId -> M unit)
    (frame : FrameId) (index : nat) : M unit :=
  fun w =>
    match steps with
    | O => OutOfFuel
    | S steps' =>
        match nth_error (childFrames (frames w frame)) index with
        | None => Normal tt w
        | Some childFrame =>
            match body childFrame w with
            | Normal _ w' => forOfChildFrames steps' body frame (S index) w'
            | Throws e w' => Throws e w'
            | OutOfFuel => OutOfFuel
            end
        end
    end.

(** ** closeFrame *)

Definition detachFromParent (frame : FrameId) : M unit :=
  fun w =>
    match parentFrame (frames w frame) with
    | Some parent =>
        match indexOf frame (childFrames (frames w parent)) with
        | Some index =>
            Normal tt
              (updFrame parent
                 (fun p => setChildFrames (splice1 index (childFrames p)) p) w)
        | None => Normal tt w
        end
    | None => Normal tt w
    end.

(** Lines 39 to 43, and 120 to 122 of [goto] for the first three. *)
Definition markWindowClosed (frame : FrameId) : M unit :=
  win <- (fun w => nonNull (window (frames w frame)) w) ;;
  modify (updWindow win (setClosed true)).

Definition destroyAsyncTasks (frame : FrameId) : M unit :=
  modify (emit (EvDestroyTasks frame)).

Definition removeSettings (frame : FrameId) : M unit :=
  win <- (fun w => nonNull (window (frames w frame)) w) ;;
  modify (emit (EvRemoveSettings win)).

Fixpoint closeFrame (fuel : nat) (frame : FrameId) : M unit :=
  fun w =>
    match fuel with
    | O => OutOfFuel
    | S fuel' =>
        match window (frames w frame) with
        | None => Normal tt w
        | Some _ =>
            (detachFromParent frame ;;
             forOfChildFrames fuel' (closeFrame fuel') frame 0 ;;
             markWindowClosed frame ;;
             destroyAsyncTasks frame ;;
             removeSettings frame ;;
             modify (updFrame frame (setPage None)) ;;
             modify (updFrame frame (setWindow None))) w
        end
    end.

(** ** Settings and navigation policy *)

(** [frame.page.context.browser.settings] *)
Definition frameSettings (frame : FrameId) : M Settings :=
  fun w =>
    (p <- nonNull (page (frames w frame)) ;;
     ret (settings (browserOf w (browser (contextOf w (context (pageOf w p))))))) w.

Definition isDetachedMainFrame (frame : FrameId) : M bool :=
  fun w =>
    match frameClass (frames w frame) with
    | BrowserFrame => Normal false w
    | DetachedBrowserFrame =>
        (p <- nonNull (page (frames w frame)) ;;
         let ctx := context (pageOf w p) in
         ret (Nat.eqb ctx (defaultContext (browserOf w (browser (contextOf w ctx))))
              && match nth_error (pages (contextOf w ctx)) 0 with
                 | Some first => Nat.eqb first p
                 | None => false
                 end
              && Nat.eqb (mainFrame (pageOf w p)) frame)) w
    end.

Definition quote : string := String (ascii_of_nat 34) EmptyString.
Definition newline : string := String (ascii_of_nat 10) EmptyString.

(** [s.replace(pattern, replacement)] with a string pattern: the first
    occurrence only. *)
Definition replace (pattern replacement s : string) : string :=
  match String.index 0 pattern s with
  | Some n =>
      substring 0 n s ++ replacement
        ++ substring (n + String.length pattern)
             (String.length s - (n + String.length pattern)) s
  | None => s
  end.

Definition frameWindow (frame : FrameId) : M WinId :=
  fun w => nonNull (window (frames w frame)) w.

Definition framePage (frame : FrameId) : M PageId :=
  fun w => nonNull (page (frames w frame)) w.

(** Modelled from the spec: the accessors of [url] and [content] belong
    to the frame classes, which are not part of the file.  Reading
    [frame.url] gives the address of the location of the frame's
    window; assigning it moves that location to the URL of the string;
    assigning [frame.content] writes the markup into the document of the
    frame's window.  Each one dereferences [frame.window], and throws on
    a frame that has none. *)
Definition frameUrl (frame : FrameId) : M string :=
  win <- frameWindow frame ;;
  gets (fun w => href (location (windows w win))).

Definition setFrameContent (frame : FrameId) (content : string) : M unit :=
  win <- frameWindow frame ;;
  modify (updWindow win (setDocumentContent content)).

Definition truthy (o : option string) : bool :=
  match o with
  | Some s => negb (String.eqb s EmptyString)
  | None => false
  end.

Definition optReferrer (options : option GoToOptions) : option string :=
  match options with Some o => referrer o | None => None end.

Definition optReferrerPolicy (options : option GoToOptions) : option string :=
  match options with Some o => referrerPolicy o | None => None end.

(** The second argument of [fetch] at lines 150 to 152. *)
Definition gotoInit (options : option GoToOptions) : RequestInit :=
  {| init_referrer := optReferrer options;
     init_referrerPolicy := optReferrerPolicy options |}.

Section Capabilities.

(** [new URL(input, base)] of Node: [None] when the constructor throws. *)
Variable URL_new : string -> option string -> option URLRecord.

(** [window.fetch(url, init)] as it settles. *)
Variable fetch : WinId -> string -> RequestInit -> Error + Response.

(** [window.eval(code)]: [Some e] when the evaluated code throws [e]. *)
Variable evalCode : WinId -> string -> option Error.

(** An [await] suspends [goto] and lets the rest of the program run:
    what it does to the store between the call of [fetch] and its
    settlement, and between the call of [response.text ()] and its
    settlement.  It may do anything, close the frame or navigate it
    again included. *)
Variable whileFetching : World -> World.
Variable whileReading : World -> World.

(** The [windowClass] argument of [goto]: the window that
    [new windowClass({ browserFrame, console })] builds. *)
Variable windowClass : FrameId -> ConsoleId -> Window.

Definition invalidURL : Error := TypeError "Invalid URL".

Definition newURL (input : string) : M URLRecord :=
  match URL_new input None with
  | Some u => ret u
  | None => throw invalidURL
  end.

(** [frame.url = url] (see [frameUrl]). *)
Definition setFrameUrl (frame : FrameId) (url : string) : M unit :=
  win <- frameWindow frame ;;
  location <- newURL url ;;
  modify (updWindow win (setLocation location)).

Definition isBrowserNavigationAllowed (frame : FrameId) (fromURL toURL : string)
    : M bool :=
  settings <- frameSettings frame ;;
  if includes (browserNavigation settings) "deny" then ret false
  else
    sameorigin <-
      (if includes (browserNavigation settings) "sameorigin" then
         from <- newURL fromURL ;;
         to <- newURL toURL ;;
         ret (negb (String.eqb (origin from) (origin to)))
       else ret false) ;;
    if sameorigin then ret false
    else
      p <- (fun w => nonNull (page (frames w frame)) w) ;;
      main <- gets (fun w => mainFrame (pageOf w p)) ;;
      if includes (browserNavigation settings) "child-only" && Nat.eqb main frame
      then ret false
      else ret true.

Definition uriMismatch (message : string) : Error :=
  DOMException message uriMismatchError.

Definition getRelativeURL (frame : FrameId) (url : string) : M string :=
  let url := if String.eqb url EmptyString then "about:blank" else url in
  if String.prefix "about:" url || String.prefix "javascript:" url then ret url
  else
    fun w =>
      match window (frames w frame) with
      | None => Throws nullDereference w
      | Some win =>
          let location := location (windows w win) in
          match URL_new url (Some (href location)) with
          | Some u => Normal (href u) w
          | None =>
              if negb (String.eqb (hostname location) EmptyString) then
                Throws (uriMismatch
                  ("Failed to construct URL from string " ++ quote ++ url
                   ++ quote ++ ".")) w
              else
                Throws (uriMismatch
                  ("Failed to construct URL from string " ++ quote ++ url
                   ++ quote ++ " relative to URL " ++ quote ++ href location
                   ++ quote ++ ".")) w
          end
      end.

(** ** Ready-state gate and error channel *)

Definition startTask (readyStateManager : WinId) : M unit :=
  modify (emit (EvStartTask readyStateManager)).

Definition endTask (readyStateManager : WinId) : M unit :=
  modify (emit (EvEndTask readyStateManager)).

(** Modelled from the spec: [WindowErrorUtility] is not part of the file.
    [dispatchError] forwards the error to the window's error channel
    instead of raising it; [captureError] runs a unit of work and funnels
    a failure of it into [dispatchError]. *)
Definition dispatchError (target : option WinId) (error : Error) : M unit :=
  win <- nonNull target ;;
  modify (emit (EvDispatchError win error)).

Definition captureError (target : option WinId) (work : M unit) : M unit :=
  fun w =>
    match work w with
    | Throws e w' => dispatchError target e w'
    | r => r
    end.

Definition windowEval (target : option WinId) (code : string) : M unit :=
  win <- nonNull target ;;
  modify (emit (EvEval win code)) ;;
  match evalCode win code with
  | Some e => throw e
  | None => ret tt
  end.

(** The body of the arrow function of lines 90 to 100, run when the timer
    fires. *)
Definition runTimerCallback (callback : TimerCallback) : M unit :=
  match callback with
  | JavaScriptURL frame url readyStateManager =>
      current <- frameUrl frame ;;
      let code := "//# sourceURL=" ++ current ++ newline
                    ++ replace "javascript:" EmptyString url in
      settings <- frameSettings frame ;;
      (if disableErrorCapturing settings then
         target <- gets (fun w => window (frames w frame)) ;;
         windowEval target code
       else
         target <- gets (fun w => window (frames w frame)) ;;
         captureError target
           (target' <- gets (fun w => window (frames w frame)) ;;
            windowEval target' code)) ;;
      endTask readyStateManager
  end.

(** ** goto *)

Definition setTimeout (win : WinId) (callback : TimerCallback) : M unit :=
  modify (fun w =>
    {| frames := frames w; windows := windows w; nextWindow := nextWindow w;
       pageOf := pageOf w; contextOf := contextOf w; browserOf := browserOf w;
       timers := (timers w ++ [(win, callback)])%list; log := log w |}).

(** [new windowClass({ browserFrame: frame, console })]: a fresh object. *)
Definition newWindow (frame : FrameId) (console : ConsoleId) : M WinId :=
  fun w =>
    Normal (nextWindow w)
      {| frames := frames w;
         windows := fun x => if Nat.eqb x (nextWindow w)
                             then windowClass frame console else windows w x;
         nextWindow := S (nextWindow w);
         pageOf := pageOf w; contextOf := contextOf w; browserOf := browserOf w;
         timers := timers w; log := log w |}.

(** Lines 82 to 103. *)
Definition gotoJavaScript (frame : FrameId) (url : string)
    : M (option Response) :=
  settings <- frameSettings frame ;;
  if negb (disableJavaScriptEvaluation settings) then
    readyStateManager <- frameWindow frame ;;
    startTask readyStateManager ;;
    p <- framePage frame ;;
    main <- gets (fun w => mainFrame (pageOf w p)) ;;
    mainWindow <- frameWindow main ;;
    setTimeout mainWindow (JavaScriptURL frame url readyStateManager) ;;
    ret None
  else ret None.

(** Lines 105 to 113: [true] when the navigation is refused. *)
Definition notEligible (frame : FrameId) (url : string) : M bool :=
  detached <- isDetachedMainFrame frame ;;
  if detached then ret true
  else
    current <- frameUrl frame ;;
    allowed <- isBrowserNavigationAllowed frame current url ;;
    ret (negb allowed).

(** The catch block, lines 154 to 158: [response] is the response when
    the fetch had resolved, and undefined otherwise. *)
Definition fetchFailed (frame : FrameId) (readyStateManager : WinId)
    (error : Error) (response : option Response) : M (option Response) :=
  endTask readyStateManager ;;
  target <- gets (fun w => window (frames w frame)) ;;
  dispatchError target error ;;
  ret response.

(** Lines 160 to 163. *)
Definition installContent (frame : FrameId) (readyStateManager : WinId)
    (response : Response) (responseText : string) : M (option Response) :=
  setFrameContent frame responseText ;;
  endTask readyStateManager ;;
  ret (Some response).

(** Lines 139 to 163.  [goto] is suspended twice, at the [await] of
    [fetch] and at the [await] of [response.text ()]; when it resumes it
    reads [frame.window] again from the store as the rest of the program
    left it. *)
Definition fetchContent (frame : FrameId) (url : string)
    (options : option GoToOptions) : M (option Response) :=
  readyStateManager <- frameWindow frame ;;
  startTask readyStateManager ;;
  win <- frameWindow frame ;;
  modify (emit (EvFetch win url (gotoInit options))) ;;
  modify whileFetching ;;
  match fetch win url (gotoInit options) with
  | inl error => fetchFailed frame readyStateManager error None
  | inr response =>
      modify whileReading ;;
      match text response with
      | inl error => fetchFailed frame readyStateManager error (Some response)
      | inr responseText =>
          installContent frame readyStateManager response responseText
      end
  end.

Definition goto (fuel : nat) (frame : FrameId) (url : string)
    (options : option GoToOptions) : M (option Response) :=
  url <- getRelativeURL frame url ;;
  if String.prefix "javascript:" url then gotoJavaScript frame url
  else
    refused <- notEligible frame url ;;
    if refused then
      settings <- frameSettings frame ;;
      (if includes (browserNavigation settings) "url-set-fallback"
       then setFrameUrl frame url
       else ret tt) ;;
      ret None
    else
      forOfChildFrames fuel (closeFrame fuel) frame 0 ;;
      modify (updFrame frame (setChildFrames [])) ;;
      markWindowClosed frame ;;
      destroyAsyncTasks frame ;;
      removeSettings frame ;;
      p <- framePage frame ;;
      console <- gets (fun w => console (pageOf w p)) ;;
      win <- newWindow frame console ;;
      modify (updFrame frame (setWindow (Some win))) ;;
      (if truthy (optReferrer options) then
         match optReferrer options with
         | Some r =>
             target <- frameWindow frame ;;
             modify (updWindow target (setReferrer r))
         | None => ret tt
         end
       else ret tt) ;;
      if String.eqb url EmptyString || String.prefix "about:" url then ret None
      else
        setFrameUrl frame url ;;
        fetchContent frame url options.

End Capabilities.

(** ** A concrete site for the examples *)

(** The URL constructor of Node on the fragment the examples use:
    [about:] URLs (opaque path, origin [null], no host), [http:] and
    [https:] URLs with a host, and a reference starting with one slash
    against such a base.  A string without a scheme and without a base,
    or against an [about:] base, is refused, as the constructor does;
    other schemes and other relative references are outside the fragment
    and refused too. *)
Definition afterPrefix (p s : string) : option string :=
  if String.prefix p s
  then Some (substring (String.length p) (String.length s - String.length p) s)
  else None.

Definition parseAuthority (scheme rest : string) : option URLRecord :=
  let n := match String.index 0 "/" rest with
           | Some n => n
           | None => String.length rest
           end in
  let host := substring 0 n rest in
  let path := substring n (String.length rest - n) rest in
  if String.eqb host EmptyString then None
  else Some {| href := scheme ++ "://" ++ host
                        ++ (if String.eqb path EmptyString then "/" else path);
               origin := scheme ++ "://" ++ host;
               hostname := match String.index 0 ":" host with
                           | Some k => substring 0 k host
                           | None => host
                           end |}.

Definition parseHierarchical (input : string) : option URLRecord :=
  match afterPrefix "https://" input with
  | Some rest => parseAuthority "https" rest
  | None =>
      match afterPrefix "http://" input with
      | Some rest => parseAuthority "http" rest
      | None => None
      end
  end.

Definition nodeURL (input : string) (base : option string) : option URLRecord :=
  if String.prefix "about:" input
  then Some {| href := input; origin := "null"; hostname := EmptyString |}
  else
    match parseHierarchical input with
    | Some u => Some u
    | None =>
        match String.index 0 ":" input, base with
        | None, Some b =>
            match parseHierarchical b with
            | Some bu =>
                if String.prefix "/" input && negb (String.prefix "//" input)
                then parseHierarchical (origin bu ++ input)
                else None
            | None => None
            end
        | _, _ => None
        end
    end.

Definition aboutBlank : URLRecord :=
  {| href := "about:blank"; origin := "null"; hostname := EmptyString |}.

(** A window class that opens its windows at [about:blank], on a blank
    document. *)
Definition blankWindow (frame : FrameId) (console : ConsoleId) : Window :=
  {| closed := false; location := aboutBlank; document_referrer := EmptyString;
     document_content := EmptyString |}.

Definition siteWindow : Window :=
  {| closed := false;
     location := {| href := "https://a.test/x"; origin := "https://a.test";
                    hostname := "a.test" |};
     document_referrer := EmptyString;
     document_content := "<p>old</p>" |}.

Definition liveFrame (win : WinId) (parent : option FrameId)
    (children : list FrameId) : Frame :=
  {| frameClass := BrowserFrame; window := Some win; parentFrame := parent;
     childFrames := children; page := Some 0 |}.

Definition noFrame : Frame :=
  {| frameClass := BrowserFrame; window := None; parentFrame := None;
     childFrames := []; page := None |}.

(** One browser, one context, one page; main frame 0 at
    [https://a.test/x] with the child frames 1 and 2, each on a blank
    window, as two calls of [newFrame] on the main frame leave them. *)
Definition site (navigation : list string) (noCapture : bool) : World :=
  {| frames := fun f =>
       match f with
       | 0 => liveFrame 0 None [1; 2]
       | 1 => liveFrame 1 (Some 0) []
       | 2 => liveFrame 2 (Some 0) []
       | _ => noFrame
       end;
     windows := fun i => match i with
                         | 0 => siteWindow
                         | _ => blankWindow 0 0
                         end;
     nextWindow := 3;
     pageOf := fun _ => {| context := 0; mainFrame := 0; console := 0 |};
     contextOf := fun _ => {| browser := 0; pages := [0] |};
     browserOf := fun _ =>
       {| settings := {| browserNavigation := navigation;
                         disableJavaScriptEvaluation := false;
                         disableErrorCapturing := noCapture |};
          defaultContext := 0 |};
     timers := [];
     log := [] |}.

Definition stateOf {A} (c : Completion A) (w0 : World) : World :=
  match c with Normal _ w => w | Throws _ w => w | OutOfFuel => w0 end.

(** Modelled from the spec: [DocumentReadyStateManager] is not part of
    the file.  The gate of a window counts the tasks opened and the tasks
    closed on it; it is open while a task that was started has not been
    ended. *)
Definition tasksStarted (win : WinId) (trace : list Event) : nat :=
  List.length (filter (fun e => match e with
                                | EvStartTask i => Nat.eqb i win
                                | _ => false
                                end) trace).

Definition tasksEnded (win : WinId) (trace : list Event) : nat :=
  List.length (filter (fun e => match e with
                                | EvEndTask i => Nat.eqb i win
                                | _ => false
                                end) trace).

Definition gateOpen (win : WinId) (w : World) : Prop :=
  tasksEnded win (log w) < tasksStarted win (log w).

(** The errors a trace delivers to the error channel of a window. *)
Definition errorsDispatched (win : WinId) (trace : list Event) : list Error :=
  flat_map (fun e => match e with
                     | EvDispatchError i error =>
                         if Nat.eqb i win then [error] else []
                     | _ => []
                     end) trace.

Definition fetchesPerformed (trace : list Event) : nat :=
  List.length (filter (fun e => match e with
                                | EvFetch _ _ _ => true
                                | _ => false
                                end) trace).

(** The navigation policy of the browser a page belongs to. *)
Definition policyOf (w : World) (p : PageId) : list string :=
  browserNavigation
    (settings (browserOf w (browser (contextOf w (context (pageOf w p)))))).

Definition siteDepth (f : FrameId) : nat :=
  match f with 0 => 1 | _ => 0 end.

(** Capabilities for the examples: a network that is down, a response
    whose body cannot be read, and code that throws. *)
Definition offline : WinId -> string -> RequestInit -> Error + Response :=
  fun _ _ _ => inl (OtherError "offline").

Definition brokenBody : WinId -> string -> RequestInit -> Error + Response :=
  fun _ u _ => inr {| responseURL := u; text := inl (OtherError "reset") |}.

Definition throwingCode : WinId -> string -> option Error :=
  fun _ _ => Some (OtherError "1").

(** ** newFrame *)

Definition setParentFrame (o : option FrameId) (fr : Frame) : Frame :=
  {| frameClass := frameClass fr; window := window fr; parentFrame := o;
     childFrames := childFrames fr; page := page fr |}.

(** Lines 52 to 59.  The constructor of the parent's class is not part
    of the file: [construct] is what
    [new parentFrame.constructor(parentFrame.page)] does to the store,
    and the frame it returns. *)
Definition newFrame (construct : FrameClass -> option PageId -> M FrameId)
    (parent : FrameId) : M FrameId :=
  fun w =>
    (frame <- construct (frameClass (frames w parent)) (page (frames w parent)) ;;
     modify (updFrame frame (setParentFrame (Some parent))) ;;
     modify (updFrame parent
               (fun p => setChildFrames (childFrames p ++ [frame])%list p)) ;;
     ret frame) w.

(** A constructor for the examples: frame 3 with window 3, on the page
    it is given. *)
Definition constructThird (class : FrameClass) (pg : option PageId)
    : M FrameId :=
  fun w =>
    Normal 3
      (updFrame 3
         (fun _ => {| frameClass := class; window := Some 3;
                      parentFrame := None; childFrames := []; page := pg |})
         w).

(** The code that the timer callback evaluates. *)
Definition javascriptCode (frameUrl target : string) : string :=
  "//# sourceURL=" ++ frameUrl ++ newline
    ++ replace "javascript:" EmptyString target.

(** The site of the examples with its main frame of the detached class. *)
Definition detachedSite : World :=
  updFrame 0 (fun fr =>
    {| frameClass := DetachedBrowserFrame; window := window fr;
       parentFrame := parentFrame fr; childFrames := childFrames fr;
       page := page fr |})
    (site [] false).

(** ** Which children a closing loop reaches *)

(** The elements of a list at even positions ([keep = true]) or at odd
    positions ([keep = false]), counting from 0. *)
Fixpoint alternate (keep : bool) (l : list FrameId) : list FrameId :=
  match l with
  | [] => []
  | a :: r => if keep then a :: alternate false r else alternate true r
  end.

(** A live child of [parent] that has no children of its own. *)
Definition LiveLeafOf (w : World) (parent c : FrameId) : Prop :=
  c <> parent
  /\ window (frames w c) <> None
  /\ parentFrame (frames w c) = Some parent
  /\ childFrames (frames w c) = [].

(** What a teardown never undoes: a frame without a window stays
    without one, a closed window stays closed, and no window changes its
    location, its referrer or its document. *)
Definition NeverReopens (w w' : World) : Prop :=
  (forall g, window (frames w g) = None -> window (frames w' g) = None)
  /\ (forall i, closed (windows w i) = true -> closed (windows w' i) = true)
  /\ (forall i, location (windows w' i) = location (windows w i)
                /\ document_referrer (windows w' i)
                   = document_referrer (windows w i)
                /\ document_content (windows w' i)
                   = document_content (windows w i)).

(** The store that lines 39 to 43 leave. *)
Definition finalized (frame : FrameId) (win : WinId) (w : World) : World :=
  updFrame frame (setWindow None)
    (updFrame frame (setPage None)
       (emit (EvRemoveSettings win)
          (emit (EvDestroyTasks frame)
             (updWindow win (setClosed true) w)))).

(** Schedules for the examples: nothing else runs while [goto] is
    suspended, or the frame is closed meanwhile. *)
Definition quiet : World -> World := fun w => w.


(** The document that [frame.content] reads: that of the frame's window,
    if the frame has one. *)
Definition frameDocument (w : World) (frame : FrameId) : option string :=
  match window (frames w frame) with
  | Some win => Some (document_content (windows w win))
  | None => None
  end.

(** The window that line 124 constructs, as lines 129 to 131 leave it. *)
Definition constructed (windowClass : FrameId -> ConsoleId -> Window)
    (frame : FrameId) (console : ConsoleId) (options : option GoToOptions)
    : Window :=
  match optReferrer options with
  | Some r => if truthy (Some r)
              then setReferrer r (windowClass frame console)
              else windowClass frame console
  | None => windowClass frame console
  end.

(** The store in which [goto] is suspended at the [await] of [fetch]:
    lines 137 to 149 have moved the location of the new window, started
    the task and called [fetch]. *)
Definition fetching (win : WinId) (location : URLRecord) (target : string)
    (options : option GoToOptions) (w : World) : World :=
  emit (EvFetch win target (gotoInit options))
    (emit (EvStartTask win) (updWindow win (setLocation location) w)).

(** The store in which [goto] resumes after its last [await]: the rest
    of the program has run while the fetch was pending and, when the
    fetch resolved, while the body was read. *)
Definition resumption
    (fetch : WinId -> string -> RequestInit -> Error + Response)
    (whileFetching whileReading : World -> World)
    (win : WinId) (target : string) (options : option GoToOptions)
    (suspended : World) : World :=
  match fetch win target (gotoInit options) with
  | inl _ => whileFetching suspended
  | inr _ => whileReading (whileFetching suspended)
  end.

(** [response || null] at line 157. *)
Definition lastResponse
    (fetch : WinId -> string -> RequestInit -> Error + Response)
    (win : WinId) (target : string) (options : option GoToOptions)
    : option Response :=
  match fetch win target (gotoInit options) with
  | inl _ => None
  | inr response => Some response
  end.

(** ** Proof steps *)

Ltac run := unfold bind, ret, throw, gets, modify, nonNull; simpl.

Ltac branch :=
  match goal with
  | |- context [if ?b then _ else _] => destruct b; simpl
  end.

(** ** Teardown: what closing frames can change *)

Definition teardownEvent (e : Event) : Prop :=
  match e with
  | EvDestroyTasks _ | EvRemoveSettings _ => True
  | _ => False
  end.

(** The frame graph is a tree of bounded width: [depth] decreases from a
    frame to each of its children. *)
Definition TreeShaped (depth : FrameId -> nat) (width : nat) (w : World) : Prop :=
  (forall f c, In c (childFrames (frames w f)) -> depth c < depth f)
  /\ (forall f, List.length (childFrames (frames w f)) <= width).

(** [w'] comes from [w] by closing frames of depth below [bound]. *)
Record Teardown (depth : FrameId -> nat) (bound : nat) (w w' : World) : Prop := {
  td_children : forall g,
    incl (childFrames (frames w' g)) (childFrames (frames w g))
    /\ List.length (childFrames (frames w' g)) <= List.length (childFrames (frames w g));
  td_above : forall g, bound <= depth g ->
    window (frames w' g) = window (frames w g)
    /\ page (frames w' g) = page (frames w g);
  td_fixed : forall g,
    parentFrame (frames w' g) = parentFrame (frames w g)
    /\ frameClass (frames w' g) = frameClass (frames w g);
  td_env :
    nextWindow w' = nextWindow w /\ pageOf w' = pageOf w
    /\ contextOf w' = contextOf w /\ browserOf w' = browserOf w
    /\ timers w' = timers w;
  td_log : exists evs, log w' = (log w ++ evs)%list /\ Forall teardownEvent evs
}.

Lemma Teardown_refl depth bound w : Teardown depth bound w w.
Proof.
  split; intros; repeat split; auto using incl_refl.
  exists []. rewrite app_nil_r. auto.
Qed.

Lemma Teardown_trans depth bound w1 w2 w3 :
  Teardown depth bound w1 w2 -> Teardown depth bound w2 w3 ->
  Teardown depth bound w1 w3.
Proof.
  intros [c1 a1 f1 e1 l1] [c2 a2 f2 e2 l2]. split.
  - intro g. destruct (c1 g), (c2 g). split; [eapply incl_tran; eauto | lia].
  - intros g Hg. destruct (a1 g Hg) as [<- <-]. apply a2; exact Hg.
  - intro g. destruct (f1 g) as (<- & <-). apply f2.
  - destruct e1 as (<- & <- & <- & <- & <-). exact e2.
  - destruct l1 as (ev1 & E1 & F1), l2 as (ev2 & E2 & F2).
    exists (ev1 ++ ev2)%list. rewrite E2, E1, app_assoc. split; auto.
    apply Forall_app; auto.
Qed.

Lemma Teardown_weaken depth b b' w w' :
  b <= b' -> Teardown depth b w w' -> Teardown depth b' w w'.
Proof.
  intros Hb [c a f e l]. split; auto. intros g Hg. apply a. lia.
Qed.

Lemma TreeShaped_Teardown depth width bound w w' :
  TreeShaped depth width w -> Teardown depth bound w w' ->
  TreeShaped depth width w'.
Proof.
  intros [Hd Hw] T. split.
  - intros f c Hin. apply Hd. apply (td_children _ _ _ _ T f). exact Hin.
  - intro f. destruct (td_children _ _ _ _ T f) as [_ Hl]. specialize (Hw f). lia.
Qed.

Lemma splice1_incl i l : incl (splice1 i l) l.
Proof.
  unfold splice1. revert l. induction i as [|i IH]; intros [|x l]; simpl;
    try apply incl_refl.
  - apply incl_tl, incl_refl.
  - apply incl_cons; [left; reflexivity | apply incl_tl, IH].
Qed.

Lemma splice1_length i l : List.length (splice1 i l) <= List.length l.
Proof.
  unfold splice1. rewrite length_app, length_firstn, length_skipn. lia.
Qed.

Lemma setChildFrames_Teardown depth p l w :
  incl l (childFrames (frames w p)) ->
  List.length l <= List.length (childFrames (frames w p)) ->
  Teardown depth 0 w (updFrame p (setChildFrames l) w).
Proof.
  intros Hi Hl. split; simpl.
  - intro g. destruct (Nat.eqb_spec g p) as [-> | _]; simpl; auto using incl_refl.
  - intros g _. destruct (Nat.eqb_spec g p) as [-> | _]; simpl; auto.
  - intro g. destruct (Nat.eqb_spec g p) as [-> | _]; simpl; auto.
  - repeat split.
  - exists []. rewrite app_nil_r. auto.
Qed.

Lemma detachFromParent_Teardown depth frame w :
  exists w', detachFromParent frame w = Normal tt w' /\ Teardown depth 0 w w'.
Proof.
  unfold detachFromParent.
  destruct (parentFrame (frames w frame)) as [parent|];
    [destruct (indexOf frame (childFrames (frames w parent))) as [index|] |];
    eexists; (split; [reflexivity|]); try apply Teardown_refl.
  apply setChildFrames_Teardown; [apply splice1_incl | apply splice1_length].
Qed.

(** Lines 39 to 43 touch the frame being closed and its window only. *)
Lemma finalize_Teardown depth frame win w :
  Teardown depth (S (depth frame)) w
    (updFrame frame (setWindow None)
       (updFrame frame (setPage None)
          (emit (EvRemoveSettings win)
             (emit (EvDestroyTasks frame)
                (updWindow win (setClosed true) w))))).
Proof.
  split; simpl.
  - intro g. rewrite Nat.eqb_refl.
    destruct (Nat.eqb_spec g frame) as [-> | _]; simpl; auto using incl_refl.
  - intros g Hg. rewrite Nat.eqb_refl.
    destruct (Nat.eqb_spec g frame) as [-> | _]; simpl; auto. lia.
  - intro g. rewrite Nat.eqb_refl.
    destruct (Nat.eqb_spec g frame) as [-> | _]; simpl; auto.
  - repeat split.
  - exists [EvDestroyTasks frame; EvRemoveSettings win].
    rewrite <- app_assoc. simpl. split; [reflexivity|].
    repeat constructor.
Qed.

Lemma forOfChildFrames_Teardown depth width body frame :
  (forall c w, depth c < depth frame -> TreeShaped depth width w ->
     exists w', body c w = Normal tt w' /\ Teardown depth (depth frame) w w') ->
  forall steps index w,
    TreeShaped depth width w ->
    List.length (childFrames (frames w frame)) - index < steps ->
    exists w', forOfChildFrames steps body frame index w = Normal tt w'
               /\ Teardown depth (depth frame) w w'.
Proof.
  intros Hbody. induction steps as [|steps IH]; intros index w Hw Hlen; [lia|].
  simpl. destruct (nth_error (childFrames (frames w frame)) index) as [c|] eqn:E.
  - assert (Hi : index < List.length (childFrames (frames w frame)))
      by (apply nth_error_Some; congruence).
    apply nth_error_In in E.
    destruct (Hbody c w) as (w1 & -> & T1); [apply Hw, E | exact Hw |].
    destruct (IH (S index) w1) as (w2 & -> & T2).
    + eapply TreeShaped_Teardown; eauto.
    + destruct (td_children _ _ _ _ T1 frame) as [_ Hl]. lia.
    + exists w2. split; [reflexivity | eapply Teardown_trans; eauto].
  - exists w. split; [reflexivity | apply Teardown_refl].
Qed.

(** On a tree, [closeFrame] returns, and it leaves every frame above the
    one it was called on with its window and page. *)
Lemma closeFrame_Teardown depth width fuel : forall frame w,
  TreeShaped depth width w -> depth frame + width + 2 <= fuel ->
  exists w', closeFrame fuel frame w = Normal tt w'
    /\ Teardown depth (S (depth frame)) w w'
    /\ window (frames w' frame) = None
    /\ (window (frames w frame) <> None -> page (frames w' frame) = None).
Proof.
  induction fuel as [|fuel IH]; intros frame w Hw Hfuel; [lia|].
  simpl. destruct (window (frames w frame)) as [win|] eqn:Ewin.
  2:{ exists w. split; [reflexivity|]. split; [apply Teardown_refl|].
      split; [exact Ewin | congruence]. }
  unfold bind at 1.
  destruct (detachFromParent_Teardown depth frame w) as (w1 & -> & T1).
  assert (Hw1 : TreeShaped depth width w1) by (eapply TreeShaped_Teardown; eauto).
  unfold bind at 1.
  destruct (forOfChildFrames_Teardown depth width (closeFrame fuel) frame)
    with (steps := fuel) (index := 0) (w := w1) as (w2 & -> & T2); auto.
  { intros c w0 Hc Hw0.
    destruct (IH c w0 Hw0) as (w' & E & T & _); [lia|].
    exists w'. split; [exact E | eapply Teardown_weaken; [|exact T]; lia]. }
  { destruct Hw1 as [_ Hl]. specialize (Hl frame). lia. }
  assert (E2 : window (frames w2 frame) = Some win).
  { destruct (td_above _ _ _ _ T2 frame) as [-> _]; [lia|].
    destruct (td_above _ _ _ _ T1 frame) as [-> _]; [lia | exact Ewin]. }
  unfold markWindowClosed, destroyAsyncTasks, removeSettings, bind, modify, nonNull, ret.
  simpl. rewrite E2. simpl. rewrite E2. simpl.
  eexists. split; [reflexivity|]. split; [|split].
  - eapply Teardown_trans; [|apply finalize_Teardown].
    eapply Teardown_trans; eapply Teardown_weaken; try eassumption; lia.
  - simpl. rewrite ?Nat.eqb_refl. reflexivity.
  - intros _. simpl. rewrite ?Nat.eqb_refl. simpl. rewrite ?Nat.eqb_refl.
    reflexivity.
Qed.

Lemma site_TreeShaped navigation noCapture :
  TreeShaped siteDepth 2 (site navigation noCapture).
Proof.
  split.
  - intros [|[|[|f]]] c; simpl; intros H; try contradiction.
    destruct H as [<- | [<- | []]]; simpl; lia.
  - intros [|[|[|f]]]; simpl; lia.
Qed.

Lemma includes_In l x : includes l x = true <-> In x l.
Proof.
  unfold includes. rewrite existsb_exists. split.
  - intros (y & Hy & E). apply String.eqb_eq in E. subst. exact Hy.
  - intros H. exists x. split; [exact H | apply String.eqb_refl].
Qed.

Lemma includes_not_In l x : includes l x = false <-> ~ In x l.
Proof.
  rewrite <- includes_In. destruct (includes l x); split; congruence.
Qed.

(** ** closeFrame *)

(** C9: closing a frame twice leaves the state that closing it once
    leaves.  On a tree the first call returns; after it the frame has no
    window, so that the second call returns at once with the store it
    was given. *)
Theorem closeFrame_idempotent depth width fuel frame w :
  TreeShaped depth width w -> depth frame + width + 2 <= fuel ->
  exists w1, closeFrame fuel frame w = Normal tt w1
    /\ window (frames w1 frame) = None
    /\ forall fuel', closeFrame (S fuel') frame w1 = Normal tt w1.
Proof.
  intros Hw Hfuel.
  destruct (closeFrame_Teardown depth width fuel frame w Hw Hfuel)
    as (w1 & E & _ & Hwin & _).
  exists w1. split; [exact E|]. split; [exact Hwin|].
  intro fuel'. simpl. rewrite Hwin. reflexivity.
Qed.

Lemma closeFrame_idempotent_witness :
  exists w1, closeFrame 5 0 (site [] false) = Normal tt w1
    /\ window (frames w1 0) = None
    /\ forall fuel', closeFrame (S fuel') 0 w1 = Normal tt w1.
Proof.
  apply (closeFrame_idempotent siteDepth 2 5 0 (site [] false)).
  - apply site_TreeShaped.
  - simpl. lia.
Defined.

(** C1, at a frame with two children: the loop of [closeFrame] runs over
    the array that the closed child removes itself from.  Closing frame 0
    closes child 1, which leaves the array as [[2]]; the iterator is then
    at index 1, past the end, and child 2 keeps its window and its page. *)
Theorem closeFrame_skips_second_child :
  exists w', closeFrame 5 0 (site [] false) = Normal tt w'
    /\ window (frames w' 0) = None
    /\ window (frames w' 1) = None /\ page (frames w' 1) = None
    /\ window (frames w' 2) = Some 2 /\ page (frames w' 2) = Some 0
    /\ childFrames (frames w' 0) = [2].
Proof.
  exists (stateOf (closeFrame 5 0 (site [] false)) (site [] false)).
  vm_compute. repeat split.
Qed.

(** ** Navigation policy *)

Lemma frameSettings_page w frame p :
  page (frames w frame) = Some p ->
  frameSettings frame w
  = Normal (settings (browserOf w (browser (contextOf w (context (pageOf w p)))))) w.
Proof. intros E. unfold frameSettings. run. rewrite E. reflexivity. Qed.

Lemma isBrowserNavigationAllowed_page
    (URL_new : string -> option string -> option URLRecord)
    w frame p fromURL toURL :
  page (frames w frame) = Some p ->
  isBrowserNavigationAllowed URL_new frame fromURL toURL w
  = let childOnly := includes (policyOf w p) "child-only"
                     && Nat.eqb (mainFrame (pageOf w p)) frame in
    if includes (policyOf w p) "deny" then Normal false w
    else if includes (policyOf w p) "sameorigin" then
      match URL_new fromURL None, URL_new toURL None with
      | Some from, Some to =>
          if String.eqb (origin from) (origin to)
          then Normal (negb childOnly) w
          else Normal false w
      | _, _ => Throws invalidURL w
      end
    else Normal (negb childOnly) w.
Proof.
  intros Hp.
  unfold isBrowserNavigationAllowed, bind at 1.
  rewrite (frameSettings_page _ _ _ Hp). fold (policyOf w p).
  destruct (includes (policyOf w p) "deny"); [reflexivity|].
  destruct (includes (policyOf w p) "sameorigin").
  - unfold newURL. destruct (URL_new fromURL None) as [from|]; run;
      [destruct (URL_new toURL None) as [to|]; run |]; try reflexivity.
    destruct (String.eqb (origin from) (origin to)); simpl; [|reflexivity].
    rewrite Hp. simpl. branch; reflexivity.
  - run. rewrite Hp. simpl. branch; reflexivity.
Qed.

Lemma isBrowserNavigationAllowed_eval
    (URL_new : string -> option string -> option URLRecord)
    w frame p fromURL toURL from to :
  page (frames w frame) = Some p ->
  URL_new fromURL None = Some from ->
  URL_new toURL None = Some to ->
  isBrowserNavigationAllowed URL_new frame fromURL toURL w
  = Normal (negb (includes (policyOf w p) "deny"
                  || (includes (policyOf w p) "sameorigin"
                      && negb (String.eqb (origin from) (origin to)))
                  || (includes (policyOf w p) "child-only"
                      && Nat.eqb (mainFrame (pageOf w p)) frame))) w.
Proof.
  intros Hp Hfrom Hto.
  rewrite (isBrowserNavigationAllowed_page URL_new w frame p _ _ Hp).
  rewrite Hfrom, Hto. simpl.
  destruct (includes (policyOf w p) "deny"); [reflexivity|].
  destruct (includes (policyOf w p) "sameorigin"); [|reflexivity].
  destruct (String.eqb (origin from) (origin to)); reflexivity.
Qed.

(** C5: on a frame that has a page, and for two strings that parse as
    URLs, the answer is [false] exactly when the policy has [deny], or
    has [sameorigin] while the origins differ, or has [child-only] while
    the frame is the main frame of its page; it is [true] in every other
    case. *)
Theorem isBrowserNavigationAllowed_decides
    (URL_new : string -> option string -> option URLRecord)
    w frame p fromURL toURL from to :
  page (frames w frame) = Some p ->
  URL_new fromURL None = Some from ->
  URL_new toURL None = Some to ->
  exists b,
    isBrowserNavigationAllowed URL_new frame fromURL toURL w = Normal b w
    /\ (b = false <->
          In "deny" (policyOf w p)
          \/ (In "sameorigin" (policyOf w p) /\ origin from <> origin to)
          \/ (In "child-only" (policyOf w p) /\ mainFrame (pageOf w p) = frame))
    /\ (b = true <->
          ~ (In "deny" (policyOf w p)
             \/ (In "sameorigin" (policyOf w p) /\ origin from <> origin to)
             \/ (In "child-only" (policyOf w p)
                 /\ mainFrame (pageOf w p) = frame))).
Proof.
  intros Hp Hfrom Hto. eexists. split.
  - apply (isBrowserNavigationAllowed_eval URL_new w frame p _ _ from to); auto.
  - pose proof (includes_In (policyOf w p) "deny") as Hd.
    pose proof (includes_In (policyOf w p) "sameorigin") as Hs.
    pose proof (includes_In (policyOf w p) "child-only") as Hc.
    destruct (includes (policyOf w p) "deny"),
             (includes (policyOf w p) "sameorigin"),
             (includes (policyOf w p) "child-only"),
             (String.eqb_spec (origin from) (origin to)),
             (Nat.eqb_spec (mainFrame (pageOf w p)) frame);
      simpl; intuition congruence.
Qed.

Lemma isBrowserNavigationAllowed_decides_witness :
  exists b,
    isBrowserNavigationAllowed nodeURL 1 "https://a.test/x" "https://b.test/y"
      (site ["sameorigin"] false) = Normal b (site ["sameorigin"] false)
    /\ b = false.
Proof.
  destruct (isBrowserNavigationAllowed_decides nodeURL
              (site ["sameorigin"] false) 1 0
              "https://a.test/x" "https://b.test/y"
              {| href := "https://a.test/x"; origin := "https://a.test";
                 hostname := "a.test" |}
              {| href := "https://b.test/y"; origin := "https://b.test";
                 hostname := "b.test" |}
              eq_refl eq_refl eq_refl) as (b & E & Hfalse & _).
  exists b. split; [exact E|].
  apply Hfalse. right. left. split.
  - simpl. left. reflexivity.
  - simpl. discriminate.
Defined.

(** [isBrowserNavigationAllowed] reads the store and never writes it. *)
Lemma isBrowserNavigationAllowed_reads
    (URL_new : string -> option string -> option URLRecord)
    w frame fromURL toURL :
  (exists b, isBrowserNavigationAllowed URL_new frame fromURL toURL w = Normal b w)
  \/ (exists e, isBrowserNavigationAllowed URL_new frame fromURL toURL w
                = Throws e w).
Proof.
  unfold isBrowserNavigationAllowed, frameSettings, newURL. run.
  destruct (page (frames w frame)) as [p|] eqn:Hp; simpl; [|right; eauto].
  fold (policyOf w p).
  destruct (includes (policyOf w p) "deny"); [left; eauto|].
  destruct (includes (policyOf w p) "sameorigin"); simpl.
  - destruct (URL_new fromURL None); simpl; [|right; eauto].
    destruct (URL_new toURL None); simpl; [|right; eauto].
    branch; [left; eauto|]. rewrite Hp. simpl. branch; left; eauto.
  - rewrite Hp. simpl. branch; left; eauto.
Qed.

(** C6, as the code has it: the call leaves the store as it was; on a
    frame that has a page it returns a boolean when the policy has
    [deny], or has no [sameorigin], or both strings parse as URLs; with
    [sameorigin] and without [deny], a string that does not parse makes
    it throw the [TypeError] of the URL constructor. *)
Theorem isBrowserNavigationAllowed_total_on_urls
    (URL_new : string -> option string -> option URLRecord)
    w frame p fromURL toURL :
  page (frames w frame) = Some p ->
  (In "deny" (policyOf w p) \/ ~ In "sameorigin" (policyOf w p)
   \/ (URL_new fromURL None <> None /\ URL_new toURL None <> None) ->
   exists b,
     isBrowserNavigationAllowed URL_new frame fromURL toURL w = Normal b w)
  /\ (~ In "deny" (policyOf w p) -> In "sameorigin" (policyOf w p) ->
      URL_new fromURL None = None \/ URL_new toURL None = None ->
      isBrowserNavigationAllowed URL_new frame fromURL toURL w
      = Throws invalidURL w).
Proof.
  intros Hp.
  pose proof (includes_In (policyOf w p) "deny") as Hd.
  pose proof (includes_In (policyOf w p) "sameorigin") as Hs.
  rewrite (isBrowserNavigationAllowed_page URL_new w frame p _ _ Hp). simpl.
  destruct (includes (policyOf w p) "deny").
  { split; [eauto | intros H; exfalso; apply H, Hd; reflexivity]. }
  destruct (includes (policyOf w p) "sameorigin").
  - destruct (URL_new fromURL None) as [from|], (URL_new toURL None) as [to|].
    + split; [| intros _ _ [H|H]; discriminate].
      intros _. branch; eauto.
    + split; [| reflexivity].
      intros [H | [H | [_ H]]]; [apply Hd in H; discriminate | | congruence].
      exfalso. apply H, Hs. reflexivity.
    + split; [| reflexivity].
      intros [H | [H | [H _]]]; [apply Hd in H; discriminate | | congruence].
      exfalso. apply H, Hs. reflexivity.
    + split; [| reflexivity].
      intros [H | [H | [H _]]]; [apply Hd in H; discriminate | | congruence].
      exfalso. apply H, Hs. reflexivity.
  - split; [eauto|]. intros _ H. apply Hs in H. discriminate.
Qed.

Lemma isBrowserNavigationAllowed_total_on_urls_witness :
  (exists b,
     isBrowserNavigationAllowed nodeURL 1 "https://a.test/x" "https://a.test/z"
       (site ["sameorigin"] false) = Normal b (site ["sameorigin"] false))
  /\ isBrowserNavigationAllowed nodeURL 1 "not a url" "https://a.test/z"
       (site ["sameorigin"] false)
     = Throws invalidURL (site ["sameorigin"] false).
Proof.
  destruct (isBrowserNavigationAllowed_total_on_urls nodeURL
              (site ["sameorigin"] false) 1 0
              "https://a.test/x" "https://a.test/z" eq_refl) as [Hret _].
  destruct (isBrowserNavigationAllowed_total_on_urls nodeURL
              (site ["sameorigin"] false) 1 0
              "not a url" "https://a.test/z" eq_refl) as [_ Hthrow].
  split.
  - apply Hret. right. right. split; simpl; discriminate.
  - apply Hthrow.
    + simpl. intros [H | []]. discriminate.
    + simpl. left. reflexivity.
    + left. reflexivity.
Defined.

(** C6 as stated fails: under [sameorigin], a source string that is not
    an absolute URL makes the call throw. *)
Lemma isBrowserNavigationAllowed_raises :
  isBrowserNavigationAllowed nodeURL 0 "not a url" "https://a.test/x"
    (site ["sameorigin"] false)
  = Throws (TypeError "Invalid URL") (site ["sameorigin"] false)
  /\ ~ exists b w',
       isBrowserNavigationAllowed nodeURL 0 "not a url" "https://a.test/x"
         (site ["sameorigin"] false) = Normal b w'.
Proof.
  split; [reflexivity|]. intros (b & w' & H). vm_compute in H. discriminate.
Qed.

(** ** URL resolution *)

(** C8: when the URL constructor refuses the input against the location
    of the frame's window, [getRelativeURL] throws a [DOMException] named
    [uriMismatchError]; its message stops after the input when the
    location has a host name, and goes on with the location otherwise. *)
Theorem getRelativeURL_failure_message
    (URL_new : string -> option string -> option URLRecord)
    w frame win input :
  window (frames w frame) = Some win ->
  input <> EmptyString ->
  String.prefix "about:" input = false ->
  String.prefix "javascript:" input = false ->
  URL_new input (Some (href (location (windows w win)))) = None ->
  (hostname (location (windows w win)) <> EmptyString ->
   getRelativeURL URL_new frame input w
   = Throws (DOMException
               ("Failed to construct URL from string " ++ quote ++ input
                ++ quote ++ ".") uriMismatchError) w)
  /\ (hostname (location (windows w win)) = EmptyString ->
      getRelativeURL URL_new frame input w
      = Throws (DOMException
                  ("Failed to construct URL from string " ++ quote ++ input
                   ++ quote ++ " relative to URL " ++ quote
                   ++ href (location (windows w win)) ++ quote ++ ".")
                  uriMismatchError) w).
Proof.
  intros Hwin Hne Habout Hjs Hfail.
  unfold getRelativeURL.
  destruct (String.eqb_spec input EmptyString) as [E | _]; [contradiction|].
  rewrite Habout, Hjs. simpl. rewrite Hwin, Hfail. unfold uriMismatch.
  destruct (String.eqb_spec (hostname (location (windows w win))) EmptyString)
    as [E | E]; simpl; split; intros H; try reflexivity; contradiction.
Qed.

Lemma getRelativeURL_failure_message_witness :
  getRelativeURL nodeURL 0 "https://" (site [] false)
  = Throws (DOMException
              ("Failed to construct URL from string " ++ quote ++ "https://"
               ++ quote ++ ".") uriMismatchError) (site [] false)
  /\ getRelativeURL nodeURL 1 "foo" (site [] false)
     = Throws (DOMException
                 ("Failed to construct URL from string " ++ quote ++ "foo"
                  ++ quote ++ " relative to URL " ++ quote ++ "about:blank"
                  ++ quote ++ ".") uriMismatchError) (site [] false).
Proof.
  split.
  - apply (getRelativeURL_failure_message nodeURL (site [] false) 0 0 "https://");
      try reflexivity; simpl; discriminate.
  - apply (getRelativeURL_failure_message nodeURL (site [] false) 1 1 "foo");
      try reflexivity; simpl; discriminate.
Defined.

(** ** goto: refused navigations *)

Lemma frameUrl_live frame win w :
  window (frames w frame) = Some win ->
  frameUrl frame w = Normal (href (location (windows w win))) w.
Proof. intros H. unfold frameUrl, frameWindow. run. rewrite H. reflexivity. Qed.

Lemma setFrameUrl_live
    (URL_new : string -> option string -> option URLRecord)
    frame win target l w :
  window (frames w frame) = Some win ->
  URL_new target None = Some l ->
  setFrameUrl URL_new frame target w
  = Normal tt (updWindow win (setLocation l) w).
Proof.
  intros Hwin Hl. unfold setFrameUrl, frameWindow, newURL. run.
  rewrite Hwin. simpl. rewrite Hl. reflexivity.
Qed.



(** ** Traces *)

Lemma teardown_trace evs win :
  Forall teardownEvent evs ->
  tasksStarted win evs = 0 /\ tasksEnded win evs = 0
  /\ errorsDispatched win evs = [] /\ fetchesPerformed evs = 0.
Proof.
  unfold tasksStarted, tasksEnded, fetchesPerformed.
  induction 1 as [|e evs He _ IH]; simpl; [auto|].
  destruct e; simpl in He; try contradiction; exact IH.
Qed.

Lemma tasksStarted_app win a b :
  tasksStarted win (a ++ b) = tasksStarted win a + tasksStarted win b.
Proof. unfold tasksStarted. rewrite filter_app, length_app. reflexivity. Qed.

Lemma tasksEnded_app win a b :
  tasksEnded win (a ++ b) = tasksEnded win a + tasksEnded win b.
Proof. unfold tasksEnded. rewrite filter_app, length_app. reflexivity. Qed.

Lemma errorsDispatched_app win a b :
  errorsDispatched win (a ++ b)
  = (errorsDispatched win a ++ errorsDispatched win b)%list.
Proof. unfold errorsDispatched. apply flat_map_app. Qed.

Lemma fetchesPerformed_app a b :
  fetchesPerformed (a ++ b) = fetchesPerformed a + fetchesPerformed b.
Proof. unfold fetchesPerformed. rewrite filter_app, length_app. reflexivity. Qed.

Lemma about_not_javascript s :
  String.prefix "about:" s = true -> String.prefix "javascript:" s = false.
Proof.
  destruct s as [|c s]; cbn [String.prefix]; [reflexivity|].
  destruct (ascii_dec "a" c) as [<- | _]; [|intros H; discriminate H].
  intros _. destruct (ascii_dec "j" "a") as [e | _]; [discriminate e | reflexivity].
Qed.

Lemma getRelativeURL_pseudo
    (URL_new : string -> option string -> option URLRecord) frame input w :
  String.prefix "about:"
    (if String.eqb input EmptyString then "about:blank" else input) = true ->
  getRelativeURL URL_new frame input w
  = Normal (if String.eqb input EmptyString then "about:blank" else input) w.
Proof. intros H. unfold getRelativeURL. rewrite H. reflexivity. Qed.


(** ** goto: teardown and context creation *)

(** Lines 119 to 131, from whatever store the loop of lines 115 to 117
    returned. *)
Lemma goto_after_teardown
    (URL_new : string -> option string -> option URLRecord)
    (fetch : WinId -> string -> RequestInit -> Error + Response)
    (whileFetching whileReading : World -> World)
    (windowClass : FrameId -> ConsoleId -> Window)
    fuel w frame input options target w2 win p :
  getRelativeURL URL_new frame input w = Normal target w ->
  String.prefix "javascript:" target = false ->
  notEligible URL_new frame target w = Normal false w ->
  forOfChildFrames fuel (closeFrame fuel) frame 0 w = Normal tt w2 ->
  window (frames w2 frame) = Some win ->
  page (frames w2 frame) = Some p ->
  exists w3,
    goto URL_new fetch whileFetching whileReading windowClass fuel frame input
      options w
    = (if String.eqb target EmptyString || String.prefix "about:" target
       then Normal None w3
       else (setFrameUrl URL_new frame target ;;
             fetchContent fetch whileFetching whileReading frame target options)
              w3)
    /\ (forall g, g <> frame -> frames w3 g = frames w2 g)
    /\ childFrames (frames w3 frame) = []
    /\ window (frames w3 frame) = Some (nextWindow w2)
    /\ page (frames w3 frame) = Some p
    /\ windows w3 (nextWindow w2)
       = constructed windowClass frame (console (pageOf w2 p)) options
    /\ (win <> nextWindow w2 -> closed (windows w3 win) = true)
    /\ (forall i, i <> win -> i <> nextWindow w2 -> windows w3 i = windows w2 i)
    /\ nextWindow w3 = S (nextWindow w2)
    /\ timers w3 = timers w2
    /\ log w3 = (log w2 ++ [EvDestroyTasks frame; EvRemoveSettings win])%list.
Proof.
  intros Hres Hjs Hnot E2 Hwin2 Hp2.
  unfold goto, bind at 1. rewrite Hres, Hjs.
  unfold bind at 1. rewrite Hnot.
  unfold bind at 1. rewrite E2.
  unfold markWindowClosed, destroyAsyncTasks, removeSettings, framePage,
    frameWindow, newWindow, constructed.
  repeat (progress (run; rewrite ?Nat.eqb_refl, ?Hwin2, ?Hp2; simpl)).
  destruct options as [[[r|] policy]|]; simpl;
    [destruct (String.eqb r EmptyString); simpl | |];
    rewrite ?Nat.eqb_refl; simpl;
    (eexists; split;
     [destruct (String.eqb target EmptyString || String.prefix "about:" target);
      reflexivity |]);
    simpl; rewrite ?Nat.eqb_refl; simpl;
    repeat match goal with
           | |- _ /\ _ => split
           | |- forall _, _ => intro
           end;
    repeat match goal with
           | |- context [Nat.eqb ?a ?b] =>
               destruct (Nat.eqb_spec a b); try contradiction; try congruence
           end;
    rewrite <- ?app_assoc; auto.
Qed.

(** On a tree the loop returns, and leaves the frame its window and its
    page. *)
Lemma goto_installs_window
    (URL_new : string -> option string -> option URLRecord)
    (fetch : WinId -> string -> RequestInit -> Error + Response)
    (whileFetching whileReading : World -> World)
    (windowClass : FrameId -> ConsoleId -> Window)
    depth width fuel w frame win p input options target :
  TreeShaped depth width w -> depth frame + width + 2 <= fuel ->
  window (frames w frame) = Some win ->
  page (frames w frame) = Some p ->
  getRelativeURL URL_new frame input w = Normal target w ->
  String.prefix "javascript:" target = false ->
  notEligible URL_new frame target w = Normal false w ->
  exists w3 evs,
    goto URL_new fetch whileFetching whileReading windowClass fuel frame input
      options w
    = (if String.eqb target EmptyString || String.prefix "about:" target
       then Normal None w3
       else (setFrameUrl URL_new frame target ;;
             fetchContent fetch whileFetching whileReading frame target options)
              w3)
    /\ window (frames w3 frame) = Some (nextWindow w)
    /\ nextWindow w3 = S (nextWindow w)
    /\ windows w3 (nextWindow w)
       = constructed windowClass frame (console (pageOf w p)) options
    /\ childFrames (frames w3 frame) = []
    /\ page (frames w3 frame) = Some p
    /\ (win <> nextWindow w -> closed (windows w3 win) = true)
    /\ timers w3 = timers w
    /\ log w3 = (log w ++ evs)%list /\ Forall teardownEvent evs.
Proof.
  intros Hw Hfuel Hwin Hp Hres Hjs Hnot.
  destruct (forOfChildFrames_Teardown depth width (closeFrame fuel) frame)
    with (steps := fuel) (index := 0) (w := w) as (w2 & E2 & T2); auto.
  { intros c w0 Hc Hw0.
    destruct (closeFrame_Teardown depth width fuel c w0 Hw0) as (w' & E & T & _);
      [lia|].
    exists w'. split; [exact E | eapply Teardown_weaken; [|exact T]; lia]. }
  { destruct Hw as [_ Hl]. specialize (Hl frame). lia. }
  destruct (td_above _ _ _ _ T2 frame) as [Hwin2 Hp2]; [lia|].
  destruct (td_env _ _ _ _ T2) as (Hnext2 & Hpage2 & _ & _ & Htimers2).
  destruct (td_log _ _ _ _ T2) as (evs & Hlog2 & Hevs).
  rewrite Hwin in Hwin2. rewrite Hp in Hp2.
  destruct (goto_after_teardown URL_new fetch whileFetching whileReading
              windowClass fuel w frame input options target w2 win p
              Hres Hjs Hnot E2 Hwin2 Hp2)
    as (w3 & E & _ & Hch & Hwin3 & Hp3 & Hnew & Hclosed & _ & Hnext3 & Htimers3
        & Hlog3).
  rewrite Hnext2, ?Hpage2 in *.
  exists w3, (evs ++ [EvDestroyTasks frame; EvRemoveSettings win])%list.
  split; [exact E|]. repeat (split; [assumption|]).
  split; [congruence|].
  split; [rewrite Hlog3, Hlog2, <- app_assoc; reflexivity|].
  apply Forall_app. split; [exact Hevs | repeat constructor].
Qed.




(** ** goto: content acquisition *)

Lemma fetchFailed_live frame readyStateManager error response win w :
  window (frames w frame) = Some win ->
  fetchFailed frame readyStateManager error response w
  = Normal response
      (emit (EvDispatchError win error) (emit (EvEndTask readyStateManager) w)).
Proof.
  intros H. unfold fetchFailed, endTask, dispatchError. run. rewrite H.
  reflexivity.
Qed.


Lemma installContent_live frame readyStateManager response body win w :
  window (frames w frame) = Some win ->
  installContent frame readyStateManager response body w
  = Normal (Some response)
      (emit (EvEndTask readyStateManager)
         (updWindow win (setDocumentContent body) w)).
Proof.
  intros H. unfold installContent, setFrameContent, frameWindow, endTask. run.
  rewrite H. reflexivity.
Qed.

Lemma installContent_closed frame readyStateManager response body w :
  window (frames w frame) = None ->
  installContent frame readyStateManager response body w
  = Throws nullDereference w.
Proof.
  intros H. unfold installContent, setFrameContent, frameWindow, endTask. run.
  rewrite H. reflexivity.
Qed.

(** Up to the first [await], and what resumes after it. *)
Lemma fetchContent_suspends
    (fetch : WinId -> string -> RequestInit -> Error + Response)
    (whileFetching whileReading : World -> World)
    frame target options w win :
  window (frames w frame) = Some win ->
  fetchContent fetch whileFetching whileReading frame target options w
  = let resumed :=
      whileFetching (emit (EvFetch win target (gotoInit options))
                       (emit (EvStartTask win) w)) in
    match fetch win target (gotoInit options) with
    | inl error => fetchFailed frame win error None resumed
    | inr response =>
        match text response with
        | inl error =>
            fetchFailed frame win error (Some response) (whileReading resumed)
        | inr body =>
            installContent frame win response body (whileReading resumed)
        end
    end.
Proof.
  intros Hwin. unfold fetchContent, frameWindow, startTask.
  run. rewrite Hwin. simpl. rewrite Hwin. simpl.
  destruct (fetch win target _) as [error | response]; [reflexivity|].
  destruct (text response); reflexivity.
Qed.

(** An accepted navigation to a target that is fetched: the store in
    which [goto] is suspended, and what it does when it resumes. *)
Lemma goto_suspends
    (URL_new : string -> option string -> option URLRecord)
    (fetch : WinId -> string -> RequestInit -> Error + Response)
    (whileFetching whileReading : World -> World)
    (windowClass : FrameId -> ConsoleId -> Window)
    depth width fuel w frame win p input options target l :
  TreeShaped depth width w -> depth frame + width + 2 <= fuel ->
  window (frames w frame) = Some win ->
  page (frames w frame) = Some p ->
  getRelativeURL URL_new frame input w = Normal target w ->
  String.prefix "javascript:" target = false ->
  String.prefix "about:" target = false ->
  target <> EmptyString ->
  notEligible URL_new frame target w = Normal false w ->
  URL_new target None = Some l ->
  exists w3 evs,
    goto URL_new fetch whileFetching whileReading windowClass fuel frame input
      options w
    = (let resumed :=
         whileFetching (fetching (nextWindow w) l target options w3) in
       match fetch (nextWindow w) target (gotoInit options) with
       | inl error => fetchFailed frame (nextWindow w) error None resumed
       | inr response =>
           match text response with
           | inl error =>
               fetchFailed frame (nextWindow w) error (Some response)
                 (whileReading resumed)
           | inr body =>
               installContent frame (nextWindow w) response body
                 (whileReading resumed)
           end
       end)
    /\ window (frames w3 frame) = Some (nextWindow w)
    /\ nextWindow w3 = S (nextWindow w)
    /\ windows w3 (nextWindow w)
       = constructed windowClass frame (console (pageOf w p)) options
    /\ childFrames (frames w3 frame) = []
    /\ page (frames w3 frame) = Some p
    /\ (win <> nextWindow w -> closed (windows w3 win) = true)
    /\ timers w3 = timers w
    /\ log w3 = (log w ++ evs)%list /\ Forall teardownEvent evs.
Proof.
  intros Hw Hfuel Hwin Hp Hres Hjs Habout Hne Hnot Hl.
  destruct (goto_installs_window URL_new fetch whileFetching whileReading
              windowClass depth width fuel w frame win p input options target
              Hw Hfuel Hwin Hp Hres Hjs Hnot)
    as (w3 & evs & E & Hwin3 & Hrest).
  exists w3, evs. split; [|split; [exact Hwin3 | exact Hrest]].
  rewrite E, Habout.
  destruct (String.eqb_spec target EmptyString) as [Et | _]; [contradiction|].
  simpl. unfold bind at 1.
  rewrite (setFrameUrl_live URL_new frame (nextWindow w) target l w3 Hwin3 Hl).
  rewrite (fetchContent_suspends fetch whileFetching whileReading frame target
             options _ (nextWindow w)) by exact Hwin3.
  reflexivity.
Qed.

(** The store in which [goto] is suspended: what reads does it allow. *)
Lemma fetching_reads (windowClass : FrameId -> ConsoleId -> Window)
    frame console options win l target w3 :
  window (frames w3 frame) = Some win ->
  windows w3 win = constructed windowClass frame console options ->
  href l = target ->
  frameUrl frame (fetching win l target options w3)
  = Normal target (fetching win l target options w3)
  /\ frameDocument (fetching win l target options w3) frame
     = Some (document_content (windowClass frame console)).
Proof.
  intros Hwin Hnew Hhref. split.
  - rewrite (frameUrl_live frame win) by exact Hwin. simpl.
    rewrite Nat.eqb_refl. simpl. rewrite Hhref. reflexivity.
  - unfold frameDocument. simpl. rewrite Hwin. simpl. rewrite Nat.eqb_refl.
    simpl. rewrite Hnew. unfold constructed.
    destruct (optReferrer options) as [r|]; [destruct (truthy (Some r))|];
      reflexivity.
Qed.




(** C10: line 137 moves the location of the new window before the fetch
    begins, so that in the store in which [goto] is suspended
    [frame.url] reads the target and the frame's document is the blank
    one of the new window.  When the fetch or the body read fails and
    the frame still has a window, the catch block changes no frame and
    no window: [frame.url] and the frame's document are as the rest of
    the program left them meanwhile, and when it left them alone the
    url still is the target and the document still is that of the new
    window; the body was never written into it. *)
Theorem goto_failure_keeps_url
    (URL_new : string -> option string -> option URLRecord)
    (fetch : WinId -> string -> RequestInit -> Error + Response)
    (whileFetching whileReading : World -> World)
    (windowClass : FrameId -> ConsoleId -> Window)
    depth width fuel w frame win p input options target l error :
  TreeShaped depth width w -> depth frame + width + 2 <= fuel ->
  window (frames w frame) = Some win ->
  page (frames w frame) = Some p ->
  getRelativeURL URL_new frame input w = Normal target w ->
  String.prefix "javascript:" target = false ->
  String.prefix "about:" target = false ->
  target <> EmptyString ->
  notEligible URL_new frame target w = Normal false w ->
  URL_new target None = Some l ->
  href l = target ->
  (fetch (nextWindow w) target (gotoInit options) = inl error
   \/ exists response,
        fetch (nextWindow w) target (gotoInit options) = inr response
        /\ text response = inl error) ->
  exists suspended,
    window (frames suspended frame) = Some (nextWindow w)
    /\ frameUrl frame suspended = Normal target suspended
    /\ frameDocument suspended frame
       = Some (document_content (windowClass frame (console (pageOf w p))))
    /\ forall win',
         window (frames (resumption fetch whileFetching whileReading
                           (nextWindow w) target options suspended) frame)
         = Some win' ->
         exists r w',
           goto URL_new fetch whileFetching whileReading windowClass fuel
             frame input options w = Normal r w'
           /\ frames w' = frames (resumption fetch whileFetching whileReading
                                    (nextWindow w) target options suspended)
           /\ windows w' = windows (resumption fetch whileFetching whileReading
                                      (nextWindow w) target options suspended)
           /\ (resumption fetch whileFetching whileReading (nextWindow w)
                 target options suspended = suspended ->
               frameUrl frame w' = Normal target w'
               /\ frameDocument w' frame
                  = Some (document_content
                            (windowClass frame (console (pageOf w p))))).
Proof.
  intros Hw Hfuel Hwin Hp Hres Hjs Habout Hne Hnot Hl Hhref Hfail.
  destruct (goto_suspends URL_new fetch whileFetching whileReading windowClass
              depth width fuel w frame win p input options target l
              Hw Hfuel Hwin Hp Hres Hjs Habout Hne Hnot Hl)
    as (w3 & evs & E & Hwin3 & _ & Hnew & _).
  destruct (fetching_reads windowClass frame (console (pageOf w p)) options
              (nextWindow w) l target w3 Hwin3 Hnew Hhref) as (Hurl & Hdoc).
  set (suspended := fetching (nextWindow w) l target options w3) in *.
  assert (Hsusp : window (frames suspended frame) = Some (nextWindow w))
    by exact Hwin3.
  assert (Hcatch :
            goto URL_new fetch whileFetching whileReading windowClass fuel
              frame input options w
            = fetchFailed frame (nextWindow w) error
                (lastResponse fetch (nextWindow w) target options)
                (resumption fetch whileFetching whileReading (nextWindow w)
                   target options suspended)).
  { rewrite E. unfold resumption, lastResponse. cbv zeta.
    destruct Hfail as [Hf | (response & Hf & Ht)]; rewrite Hf;
      [| rewrite Ht]; reflexivity. }
  clearbody suspended.
  exists suspended. split; [exact Hsusp|].
  split; [exact Hurl|]. split; [exact Hdoc|].
  intros win' Hwin'.
  rewrite (fetchFailed_live frame (nextWindow w) error _ win' _ Hwin')
    in Hcatch.
  eexists. eexists. split; [exact Hcatch|].
  split; [reflexivity|]. split; [reflexivity|].
  intros Hquiet. rewrite Hquiet in *. split.
  - rewrite (frameUrl_live frame (nextWindow w)) by exact Hsusp.
    rewrite (frameUrl_live frame (nextWindow w)) in Hurl by exact Hsusp.
    simpl. injection Hurl as ->. reflexivity.
  - exact Hdoc.
Qed.

Lemma goto_failure_keeps_url_witness :
  exists r w',
    goto nodeURL brokenBody quiet quiet blankWindow 5 0 "/y" None
      (site [] false) = Normal r w'
    /\ frameUrl 0 w' = Normal "https://a.test/y" w'
    /\ frameDocument w' 0 = Some EmptyString.
Proof.
  destruct (goto_failure_keeps_url nodeURL brokenBody quiet quiet blankWindow
              siteDepth 2 5 (site [] false) 0 0 0 "/y" None "https://a.test/y"
              {| href := "https://a.test/y"; origin := "https://a.test";
                 hostname := "a.test" |}
              (OtherError "reset") (site_TreeShaped [] false))
    as (suspended & Hs & _ & _ & H);
    [simpl; lia | reflexivity | reflexivity | reflexivity | reflexivity
    | reflexivity | discriminate | reflexivity | reflexivity | reflexivity
    | right; eexists; split; reflexivity |].
  destruct (H 3 Hs) as (r & w' & E & _ & _ & Hq).
  destruct (Hq eq_refl) as (Hurl & Hdoc).
  exists r, w'. repeat split; assumption.
Defined.

(** The body read fails with nothing else running meanwhile: the
    document that the frame had before the call is gone with the old
    window, and the frame is on the blank document of the new one. *)
Lemma goto_failure_replaces_document :
  exists r w',
    frameDocument (site [] false) 0 = Some "<p>old</p>"
    /\ goto nodeURL brokenBody quiet quiet blankWindow 5 0 "/y" None
         (site [] false) = Normal r w'
    /\ frameUrl 0 w' = Normal "https://a.test/y" w'
    /\ frameDocument w' 0 = Some EmptyString
    /\ frameDocument w' 0 <> frameDocument (site [] false) 0.
Proof.
  eexists.
  exists (stateOf (goto nodeURL brokenBody quiet quiet blankWindow 5 0 "/y"
                     None (site [] false)) (site [] false)).
  vm_compute. repeat split. discriminate.
Qed.

(** ** goto: the javascript: branch *)

(** C3, on the [javascript:] branch with error capturing disabled and
    code that throws: [goto] opens the gate and schedules the callback;
    when the timer fires, [eval] throws out of the callback before line
    99, so that [endTask] is never called and the gate stays open. *)
Theorem javascript_gate_left_open :
  exists w1 w2,
    goto nodeURL offline quiet quiet blankWindow 5 0 "javascript:throw 1" None
      (site [] true) = Normal None w1
    /\ timers w1 = [(0, JavaScriptURL 0 "javascript:throw 1" 0)]
    /\ runTimerCallback throwingCode (JavaScriptURL 0 "javascript:throw 1" 0) w1
       = Throws (OtherError "1") w2
    /\ tasksStarted 0 (log w2) = 1
    /\ tasksEnded 0 (log w2) = 0
    /\ gateOpen 0 w2.
Proof.
  exists (stateOf (goto nodeURL offline quiet quiet blankWindow 5 0
                     "javascript:throw 1" None (site [] true)) (site [] true)).
  exists (stateOf (runTimerCallback throwingCode
                     (JavaScriptURL 0 "javascript:throw 1" 0)
                     (stateOf (goto nodeURL offline quiet quiet blankWindow 5 0
                                 "javascript:throw 1" None (site [] true))
                              (site [] true)))
                  (site [] true)).
  unfold gateOpen. vm_compute. repeat split. constructor.
Qed.

(** * Further properties of the code *)

(** ** closeFrame, step by step *)

Lemma bind_Normal {A B} (m : M A) (k : A -> M B) w b w' :
  bind m k w = Normal b w' ->
  exists a w1, m w = Normal a w1 /\ k a w1 = Normal b w'.
Proof.
  unfold bind. destruct (m w) as [a w1 | e w1 |]; try discriminate. eauto.
Qed.

Lemma closeFrame_live fuel frame win w :
  window (frames w frame) = Some win ->
  closeFrame (S fuel) frame w
  = (detachFromParent frame ;;
     forOfChildFrames fuel (closeFrame fuel) frame 0 ;;
     markWindowClosed frame ;;
     destroyAsyncTasks frame ;;
     removeSettings frame ;;
     modify (updFrame frame (setPage None)) ;;
     modify (updFrame frame (setWindow None))) w.
Proof. intros H. simpl. rewrite H. reflexivity. Qed.

Lemma finalize_run frame win w :
  window (frames w frame) = Some win ->
  (markWindowClosed frame ;;
   destroyAsyncTasks frame ;;
   removeSettings frame ;;
   modify (updFrame frame (setPage None)) ;;
   modify (updFrame frame (setWindow None))) w
  = Normal tt (finalized frame win w).
Proof.
  intros H. unfold markWindowClosed, destroyAsyncTasks, removeSettings, finalized.
  run. rewrite H. simpl. rewrite H. reflexivity.
Qed.

(** A call that returns on a live frame went through the three stages. *)
Lemma closeFrame_stages fuel frame win w w' :
  window (frames w frame) = Some win ->
  closeFrame (S fuel) frame w = Normal tt w' ->
  exists w1 w2 win2,
    detachFromParent frame w = Normal tt w1
    /\ forOfChildFrames fuel (closeFrame fuel) frame 0 w1 = Normal tt w2
    /\ window (frames w2 frame) = Some win2
    /\ w' = finalized frame win2 w2.
Proof.
  intros Hwin E. rewrite (closeFrame_live _ _ _ _ Hwin) in E.
  apply bind_Normal in E. destruct E as ([] & w1 & E1 & E).
  apply bind_Normal in E. destruct E as ([] & w2 & E2 & E).
  exists w1, w2.
  destruct (window (frames w2 frame)) as [win2|] eqn:Hwin2.
  - exists win2. rewrite (finalize_run _ _ _ Hwin2) in E.
    inversion E. auto.
  - exfalso. unfold markWindowClosed in E. revert E. run.
    rewrite Hwin2. discriminate.
Qed.

Lemma NeverReopens_refl w : NeverReopens w w.
Proof. repeat split; auto. Qed.

Lemma NeverReopens_trans w1 w2 w3 :
  NeverReopens w1 w2 -> NeverReopens w2 w3 -> NeverReopens w1 w3.
Proof.
  intros (a1 & b1 & c1) (a2 & b2 & c2). repeat split; auto.
  - destruct (c2 i) as (-> & _ & _). apply c1.
  - destruct (c2 i) as (_ & -> & _). apply c1.
  - destruct (c2 i) as (_ & _ & ->). apply c1.
Qed.

Lemma detachFromParent_NeverReopens frame w w' :
  detachFromParent frame w = Normal tt w' -> NeverReopens w w'.
Proof.
  unfold detachFromParent.
  destruct (parentFrame (frames w frame)) as [parent|];
    [destruct (indexOf frame (childFrames (frames w parent))) |];
    intros E; inversion E; subst; try apply NeverReopens_refl.
  repeat split; simpl; auto.
  intros g. destruct (Nat.eqb_spec g parent) as [-> | _]; auto.
Qed.

Lemma finalized_NeverReopens frame win w :
  NeverReopens w (finalized frame win w).
Proof.
  repeat split; simpl.
  - intros g. rewrite Nat.eqb_refl.
    destruct (Nat.eqb_spec g frame) as [-> | _]; auto.
  - intros i. destruct (Nat.eqb_spec i win) as [-> | _]; auto.
  - destruct (Nat.eqb_spec i win) as [-> | _]; auto.
  - destruct (Nat.eqb_spec i win) as [-> | _]; auto.
  - destruct (Nat.eqb_spec i win) as [-> | _]; auto.
Qed.

Lemma forOfChildFrames_NeverReopens body frame :
  (forall c w w', body c w = Normal tt w' -> NeverReopens w w') ->
  forall steps index w w',
    forOfChildFrames steps body frame index w = Normal tt w' ->
    NeverReopens w w'.
Proof.
  intros Hbody. induction steps as [|steps IH]; intros index w w' E;
    [discriminate|].
  simpl in E.
  destruct (nth_error (childFrames (frames w frame)) index) as [c|].
  - destruct (body c w) as [[] w1 | |] eqn:Eb; try discriminate.
    eapply NeverReopens_trans; [apply (Hbody c w w1 Eb) | eapply IH; eauto].
  - inversion E. apply NeverReopens_refl.
Qed.

Lemma closeFrame_NeverReopens fuel : forall frame w w',
  closeFrame fuel frame w = Normal tt w' -> NeverReopens w w'.
Proof.
  induction fuel as [|fuel IH]; intros frame w w' E; [discriminate|].
  destruct (window (frames w frame)) as [win|] eqn:Hwin.
  - destruct (closeFrame_stages _ _ _ _ _ Hwin E)
      as (w1 & w2 & win2 & E1 & E2 & _ & ->).
    eapply NeverReopens_trans; [apply (detachFromParent_NeverReopens _ _ _ E1)|].
    eapply NeverReopens_trans; [|apply finalized_NeverReopens].
    eapply forOfChildFrames_NeverReopens; eauto.
  - simpl in E. rewrite Hwin in E. inversion E. apply NeverReopens_refl.
Qed.

Lemma indexOf_None x l : indexOf x l = None -> ~ In x l.
Proof.
  induction l as [|y l IH]; simpl; [auto|].
  destruct (Nat.eqb_spec y x) as [-> | Hne]; [discriminate|].
  destruct (indexOf x l); [discriminate|].
  intros _ [H | H]; [contradiction | apply IH; auto].
Qed.

Lemma indexOf_Some x l i :
  indexOf x l = Some i ->
  exists pre post, l = (pre ++ x :: post)%list /\ List.length pre = i /\ ~ In x pre.
Proof.
  revert i. induction l as [|y l IH]; simpl; intros i; [discriminate|].
  destruct (Nat.eqb_spec y x) as [-> | Hne].
  - intros E. inversion E. exists [], l. auto.
  - destruct (indexOf x l) as [j|]; [|discriminate].
    intros E. inversion E. subst.
    destruct (IH j eq_refl) as (pre & post & -> & <- & Hpre).
    exists (y :: pre), post. repeat split; auto.
    intros [H | H]; [contradiction | auto].
Qed.

Lemma indexOf_app x pre post :
  ~ In x pre -> indexOf x (pre ++ x :: post) = Some (List.length pre).
Proof.
  induction pre as [|y pre IH]; simpl; intros H.
  - rewrite Nat.eqb_refl. reflexivity.
  - destruct (Nat.eqb_spec y x) as [-> | _]; [exfalso; auto|].
    rewrite IH; auto.
Qed.

Lemma splice1_app (pre : list FrameId) x post :
  splice1 (List.length pre) (pre ++ x :: post) = (pre ++ post)%list.
Proof.
  unfold splice1. induction pre as [|y pre IH]; simpl; [reflexivity|].
  f_equal. exact IH.
Qed.

(** [indexOf] and [splice] take out the first occurrence; when the
    array holds the frame once, nothing of it is left. *)
Lemma splice1_removes x l i :
  indexOf x l = Some i -> count_occ Nat.eq_dec l x <= 1 ->
  ~ In x (splice1 i l).
Proof.
  intros E Hcount.
  destruct (indexOf_Some _ _ _ E) as (pre & post & -> & <- & Hpre).
  rewrite splice1_app. rewrite count_occ_app, count_occ_cons_eq in Hcount
    by reflexivity.
  intros Hin. apply in_app_or in Hin. destruct Hin as [Hin | Hin];
    [exact (Hpre Hin)|].
  apply (count_occ_In Nat.eq_dec) in Hin. unfold FrameId in *. lia.
Qed.

(** On a tree, the three stages of a call on a live frame. *)
Lemma closeFrame_tree_stages depth width fuel frame win w :
  TreeShaped depth width w -> depth frame + width + 2 <= fuel ->
  window (frames w frame) = Some win ->
  exists w1 w2,
    closeFrame fuel frame w = Normal tt (finalized frame win w2)
    /\ detachFromParent frame w = Normal tt w1
    /\ Teardown depth 0 w w1
    /\ Teardown depth (depth frame) w1 w2
    /\ window (frames w2 frame) = Some win
    /\ page (frames w2 frame) = page (frames w frame)
    /\ NeverReopens w w2.
Proof.
  intros Hw Hfuel Hwin.
  destruct fuel as [|fuel]; [lia|].
  destruct (detachFromParent_Teardown depth frame w) as (w1 & E1 & T1).
  assert (Hw1 : TreeShaped depth width w1) by (eapply TreeShaped_Teardown; eauto).
  destruct (forOfChildFrames_Teardown depth width (closeFrame fuel) frame)
    with (steps := fuel) (index := 0) (w := w1) as (w2 & E2 & T2); auto.
  { intros c w0 Hc Hw0.
    destruct (closeFrame_Teardown depth width fuel c w0 Hw0) as (w' & E & T & _);
      [lia|].
    exists w'. split; [exact E | eapply Teardown_weaken; [|exact T]; lia]. }
  { destruct Hw1 as [_ Hl]. specialize (Hl frame). lia. }
  destruct (td_above _ _ _ _ T2 frame) as [Hwin2 Hp2]; [lia|].
  destruct (td_above _ _ _ _ T1 frame) as [Hwin1 Hp1]; [lia|].
  rewrite Hwin1, Hwin in Hwin2. rewrite Hp1 in Hp2.
  exists w1, w2.
  split; [| split; [exact E1 | split; [exact T1 | split; [exact T2 |
           split; [exact Hwin2 | split; [exact Hp2 |]]]]]].
  - rewrite (closeFrame_live _ _ _ _ Hwin).
    unfold bind at 1. rewrite E1. unfold bind at 1. rewrite E2.
    apply finalize_run. exact Hwin2.
  - eapply NeverReopens_trans; [apply (detachFromParent_NeverReopens _ _ _ E1)|].
    apply (forOfChildFrames_NeverReopens (closeFrame fuel) frame
             (closeFrame_NeverReopens fuel) _ _ _ _ E2).
Qed.

(** X1: closing a live frame of a tree leaves it without window and
    without page, whether it has a parent or not.  The [childFrames] of
    its parent gains nothing, and when it lists the frame once, the
    frame is no longer in it. *)
Theorem closeFrame_closes_and_detaches depth width fuel frame win w :
  TreeShaped depth width w -> depth frame + width + 2 <= fuel ->
  window (frames w frame) = Some win ->
  exists w',
    closeFrame fuel frame w = Normal tt w'
    /\ window (frames w' frame) = None
    /\ page (frames w' frame) = None
    /\ forall parent,
         parentFrame (frames w frame) = Some parent ->
         incl (childFrames (frames w' parent)) (childFrames (frames w parent))
         /\ (count_occ Nat.eq_dec (childFrames (frames w parent)) frame <= 1 ->
             ~ In frame (childFrames (frames w' parent))).
Proof.
  intros Hw Hfuel Hwin.
  destruct (closeFrame_tree_stages depth width fuel frame win w Hw Hfuel Hwin)
    as (w1 & w2 & E & E1 & T1 & T2 & _ & _ & _).
  exists (finalized frame win w2). split; [exact E|].
  split; [simpl; rewrite !Nat.eqb_refl; reflexivity|].
  split; [simpl; rewrite !Nat.eqb_refl; reflexivity|].
  intros parent Hparent.
  assert (Hc : childFrames (frames (finalized frame win w2) parent)
               = childFrames (frames w2 parent)).
  { simpl. rewrite Nat.eqb_refl.
    destruct (Nat.eqb_spec parent frame) as [-> | _]; reflexivity. }
  rewrite Hc. split.
  - eapply incl_tran; [apply (td_children _ _ _ _ T2 parent)|].
    apply (td_children _ _ _ _ T1 parent).
  - intros Hcount Hin. apply (td_children _ _ _ _ T2 parent) in Hin.
    revert E1 Hin. unfold detachFromParent. rewrite Hparent.
    destruct (indexOf frame (childFrames (frames w parent))) as [i|] eqn:Ei;
      intros E1; inversion E1; subst; simpl.
    + rewrite Nat.eqb_refl. simpl. apply splice1_removes; assumption.
    + apply indexOf_None. exact Ei.
Qed.

Lemma closeFrame_closes_and_detaches_witness :
  exists w',
    closeFrame 5 1 (site [] false) = Normal tt w'
    /\ window (frames w' 1) = None
    /\ page (frames w' 1) = None
    /\ ~ In 1 (childFrames (frames w' 0))
    /\ incl (childFrames (frames w' 0)) [1; 2].
Proof.
  destruct (closeFrame_closes_and_detaches siteDepth 2 5 1 1 (site [] false))
    as (w' & E & Hwin & Hpage & Hparent).
  - apply site_TreeShaped.
  - simpl. lia.
  - reflexivity.
  - destruct (Hparent 0 eq_refl) as (Hincl & Hout).
    exists w'. split; [exact E|]. split; [exact Hwin|].
    split; [exact Hpage|].
    split; [apply Hout; simpl; lia | exact Hincl].
Defined.

(** X2: what closing a frame of a tree leaves alone.  No frame changes
    its parent or its class; the frames above the closed one keep window
    and page; no array of children gains an element; no window changes
    its location, its referrer or its document; no window is allocated
    and no timer scheduled; and the only collaborator calls are
    [destroy] and [removeSettings]: no fetch, no gate task, no error. *)
Theorem closeFrame_frame_conditions depth width fuel frame w :
  TreeShaped depth width w -> depth frame + width + 2 <= fuel ->
  exists w' trace,
    closeFrame fuel frame w = Normal tt w'
    /\ (forall g, parentFrame (frames w' g) = parentFrame (frames w g)
                  /\ frameClass (frames w' g) = frameClass (frames w g))
    /\ (forall g, depth frame < depth g ->
                  window (frames w' g) = window (frames w g)
                  /\ page (frames w' g) = page (frames w g))
    /\ (forall g, incl (childFrames (frames w' g)) (childFrames (frames w g)))
    /\ (forall i, location (windows w' i) = location (windows w i)
                  /\ document_referrer (windows w' i)
                     = document_referrer (windows w i)
                  /\ document_content (windows w' i)
                     = document_content (windows w i))
    /\ nextWindow w' = nextWindow w /\ timers w' = timers w
    /\ log w' = (log w ++ trace)%list
    /\ fetchesPerformed trace = 0
    /\ (forall win, tasksStarted win trace = 0 /\ tasksEnded win trace = 0
                    /\ errorsDispatched win trace = []).
Proof.
  intros Hw Hfuel.
  destruct (closeFrame_Teardown depth width fuel frame w Hw Hfuel)
    as (w' & E & T & _).
  destruct (closeFrame_NeverReopens fuel frame w w' E) as (_ & _ & Hwindows).
  destruct (td_log _ _ _ _ T) as (trace & Hlog & Htrace).
  destruct (td_env _ _ _ _ T) as (Hnext & _ & _ & _ & Htimers).
  exists w', trace. split; [exact E|].
  split; [apply (td_fixed _ _ _ _ T)|].
  split; [intros g Hg; apply (td_above _ _ _ _ T g); lia|].
  split; [intros g; apply (td_children _ _ _ _ T g)|].
  split; [exact Hwindows|].
  repeat (split; [assumption|]).
  split; [apply (teardown_trace trace 0 Htrace)|].
  intros win. destruct (teardown_trace trace win Htrace) as (? & ? & ? & _).
  auto.
Qed.

Lemma closeFrame_frame_conditions_witness :
  exists w',
    closeFrame 5 1 (site [] false) = Normal tt w'
    /\ window (frames w' 0) = Some 0
    /\ href (location (windows w' 0)) = "https://a.test/x"
    /\ nextWindow w' = 3.
Proof.
  destruct (closeFrame_frame_conditions siteDepth 2 5 1 (site [] false)
              (site_TreeShaped [] false))
    as (w' & trace & E & _ & Habove & _ & Hwindows & Hnext & _);
    [simpl; lia|].
  exists w'. split; [exact E|].
  destruct (Habove 0) as [Hwin _]; [simpl; lia|].
  destruct (Hwindows 0) as [Hloc _].
  rewrite Hwin, Hloc, Hnext. repeat split.
Defined.

(** X3: closing a live frame of a tree marks its window closed, and
    reopens nothing: a frame that had no window has none afterwards, a
    window that was closed stays closed, and every window keeps its
    location, its referrer and its document. *)
Theorem closeFrame_marks_window_closed depth width fuel frame win w :
  TreeShaped depth width w -> depth frame + width + 2 <= fuel ->
  window (frames w frame) = Some win ->
  exists w',
    closeFrame fuel frame w = Normal tt w'
    /\ closed (windows w' win) = true
    /\ NeverReopens w w'.
Proof.
  intros Hw Hfuel Hwin.
  destruct (closeFrame_tree_stages depth width fuel frame win w Hw Hfuel Hwin)
    as (w1 & w2 & E & _ & _ & _ & _ & _ & Hnever).
  exists (finalized frame win w2). split; [exact E|]. split.
  - simpl. rewrite Nat.eqb_refl. reflexivity.
  - eapply NeverReopens_trans; [exact Hnever | apply finalized_NeverReopens].
Qed.

Lemma closeFrame_marks_window_closed_witness :
  exists w',
    closeFrame 5 0 (site [] false) = Normal tt w'
    /\ closed (windows w' 0) = true
    /\ NeverReopens (site [] false) w'.
Proof.
  apply (closeFrame_marks_window_closed siteDepth 2 5 0 0 (site [] false)).
  - apply site_TreeShaped.
  - simpl. lia.
  - reflexivity.
Defined.


(** ** Which children the closing loop reaches *)

Lemma alternate_In b l x : In x (alternate b l) -> In x l.
Proof.
  revert b. induction l as [|a r IH]; intros b; simpl; [auto|].
  destruct b; simpl; intros H.
  - destruct H as [H | H]; [auto | right; eapply IH; eauto].
  - right. eapply IH; eauto.
Qed.

Lemma alternate_disjoint l x :
  NoDup l -> forall b,
  In x (alternate b l) -> In x (alternate (negb b) l) -> False.
Proof.
  induction 1 as [|a r Ha Hr IH]; intros b; simpl; [auto|].
  destruct b; simpl.
  - intros [<- | H1] H2.
    + apply Ha. eapply alternate_In; eauto.
    + apply (IH false); assumption.
  - intros H1 [<- | H2].
    + apply Ha. eapply alternate_In; eauto.
    + apply (IH true); assumption.
Qed.

Lemma setChildFrames_same l fr : childFrames fr = l -> setChildFrames l fr = fr.
Proof. intros <-. destruct fr. reflexivity. Qed.

Lemma nth_error_middle (pre : list FrameId) c post :
  nth_error (pre ++ c :: post) (List.length pre) = Some c.
Proof. induction pre; simpl; auto. Qed.

Lemma nth_error_past (l : list FrameId) n :
  List.length l <= n -> nth_error l n = None.
Proof. intros H. apply nth_error_None. exact H. Qed.

(** Closing a live leaf: it leaves its parent's array and is finalized. *)
Lemma closeFrame_leaf fuel parent pre c post win w :
  window (frames w c) = Some win ->
  c <> parent ->
  parentFrame (frames w c) = Some parent ->
  childFrames (frames w c) = [] ->
  childFrames (frames w parent) = (pre ++ c :: post)%list ->
  ~ In c pre ->
  closeFrame (S (S fuel)) c w
  = Normal tt (finalized c win
                 (updFrame parent (setChildFrames (pre ++ post)) w)).
Proof.
  intros Hwin Hne Hparent Hleaf Hlist Hpre.
  rewrite (closeFrame_live _ _ _ _ Hwin).
  unfold bind at 1. unfold detachFromParent.
  rewrite Hparent, Hlist, (indexOf_app _ _ _ Hpre).
  assert (Hupd : updFrame parent
                   (fun p => setChildFrames
                               (splice1 (List.length pre) (childFrames p)) p) w
                 = updFrame parent (setChildFrames (pre ++ post)) w).
  { unfold updFrame. rewrite Hlist, splice1_app. reflexivity. }
  rewrite Hupd. unfold bind at 1.
  cbn [forOfChildFrames]. simpl frames.
  destruct (Nat.eqb_spec c parent) as [Heq | _]; [contradiction|].
  rewrite Hleaf. simpl nth_error. cbv iota.
  apply finalize_run. simpl.
  destruct (Nat.eqb_spec c parent) as [Heq | _]; [contradiction | exact Hwin].
Qed.

Lemma forOfChildFrames_alternate fuel parent : forall steps pre rest w,
  2 <= fuel ->
  childFrames (frames w parent) = (pre ++ rest)%list ->
  NoDup (pre ++ rest) ->
  (forall c, In c rest -> LiveLeafOf w parent c) ->
  List.length rest < steps ->
  exists w',
    forOfChildFrames steps (closeFrame fuel) parent (List.length pre) w
    = Normal tt w'
    /\ frames w' parent
       = setChildFrames (pre ++ alternate false rest) (frames w parent)
    /\ (forall c, In c (alternate true rest) ->
                  window (frames w' c) = None /\ page (frames w' c) = None)
    /\ (forall g, g <> parent -> ~ In g (alternate true rest) ->
                  frames w' g = frames w g).
Proof.
  induction steps as [|steps IH]; intros pre rest w Hfuel Hlist Hnd Hleaf Hsteps;
    [lia|].
  destruct rest as [|c rest].
  { exists w. cbn [forOfChildFrames]. rewrite Hlist, app_nil_r.
    rewrite nth_error_past by lia. simpl.
    rewrite app_nil_r in Hlist |- *.
    rewrite (setChildFrames_same _ _ Hlist).
    split; [reflexivity|]. split; [reflexivity|].
    split; [intros c [] | reflexivity]. }
  destruct (Hleaf c (or_introl eq_refl)) as (Hne & Hlive & Hparent & Hnone).
  destruct (window (frames w c)) as [win|] eqn:Hwin; [clear Hlive | contradiction].
  assert (Hpre : ~ In c pre).
  { intro Hin. apply NoDup_remove_2 in Hnd. apply Hnd, in_or_app. auto. }
  destruct fuel as [|[|fuel]]; try lia.
  cbn [forOfChildFrames]. rewrite Hlist, nth_error_middle.
  rewrite (closeFrame_leaf fuel parent pre c rest win w
             Hwin Hne Hparent Hnone Hlist Hpre).
  set (w1 := finalized c win (updFrame parent (setChildFrames (pre ++ rest)) w)).
  assert (Hparent1 : frames w1 parent
                     = setChildFrames (pre ++ rest) (frames w parent)).
  { unfold w1. simpl.
    destruct (Nat.eqb_spec parent c) as [Heq | _]; [congruence|].
    rewrite Nat.eqb_refl. reflexivity. }
  assert (Hother1 : forall g, g <> parent -> g <> c -> frames w1 g = frames w g).
  { intros g Hg Hgc. unfold w1. simpl.
    destruct (Nat.eqb_spec g c) as [Heq | _]; [contradiction|].
    destruct (Nat.eqb_spec g parent) as [Heq | _]; [contradiction | reflexivity]. }
  assert (Hc1 : window (frames w1 c) = None /\ page (frames w1 c) = None).
  { unfold w1. simpl. rewrite !Nat.eqb_refl. simpl. split; reflexivity. }
  clearbody w1.
  destruct rest as [|d rest].
  - exists w1. destruct steps as [|steps]; [simpl in Hsteps; lia|].
    cbn [forOfChildFrames]. rewrite Hparent1. simpl childFrames.
    rewrite nth_error_past by (rewrite app_nil_r; lia).
    simpl. rewrite app_nil_r in *. split; [reflexivity|].
    split; [reflexivity|]. split.
    + intros c' [<- | []]. exact Hc1.
    + intros g Hg Hgc. apply Hother1; [exact Hg|]. intro Heq. apply Hgc.
      left. congruence.
  - assert (Hnd' : NoDup ((pre ++ [d]) ++ rest)).
    { rewrite <- app_assoc. simpl. eapply NoDup_remove_1. exact Hnd. }
    assert (Hcrest : ~ In c (d :: rest)).
    { intro Hin. apply NoDup_remove_2 in Hnd. apply Hnd, in_or_app. auto. }
    destruct (IH (pre ++ [d])%list rest w1) as (w' & E & Hp' & Hclosed & Hrest);
      try lia.
    + rewrite Hparent1, <- app_assoc. reflexivity.
    + exact Hnd'.
    + intros x Hx.
      assert (Hxl : LiveLeafOf w parent x) by (apply Hleaf; simpl; auto).
      destruct Hxl as (Hx1 & Hx2 & Hx3 & Hx4).
      assert (Hxc : x <> c) by (intro Heq; subst; apply Hcrest; simpl; auto).
      unfold LiveLeafOf. rewrite (Hother1 x Hx1 Hxc). auto.
    + simpl in Hsteps. lia.
    + exists w'. replace (List.length (pre ++ [d])) with (S (List.length pre)) in E
        by (rewrite length_app; simpl; lia).
      split; [exact E|]. simpl alternate. split; [|split].
      * rewrite Hp', Hparent1, <- app_assoc. reflexivity.
      * intros c' [<- | Hin]; [|apply Hclosed, Hin].
        rewrite (Hrest c Hne); [exact Hc1|].
        intro Hin. apply Hcrest. right. eapply alternate_In; eauto.
      * intros g Hg Hgc.
        rewrite (Hrest g Hg) by (intro Hin; apply Hgc; right; exact Hin).
        apply Hother1; [exact Hg|]. intro Heq. apply Hgc. left. congruence.
Qed.

Lemma detachFromParent_elsewhere frame w :
  exists w1,
    detachFromParent frame w = Normal tt w1
    /\ forall g, parentFrame (frames w frame) <> Some g ->
                 frames w1 g = frames w g.
Proof.
  unfold detachFromParent.
  destruct (parentFrame (frames w frame)) as [parent|];
    [destruct (indexOf frame (childFrames (frames w parent))) |];
    eexists; (split; [reflexivity|]); auto.
  intros g Hg. simpl.
  destruct (Nat.eqb_spec g parent) as [-> | _]; [congruence | reflexivity].
Qed.

(** X4: on a live frame whose children are distinct live leaves, the
    loop of [closeFrame] closes the children at positions 0, 2, 4, ...
    of [childFrames] and never reaches those at positions 1, 3, 5, ...:
    these are returned untouched, with window, page and parent, and
    they are what the closed frame still lists as its children.  No
    window changes its location or its document. *)
Theorem closeFrame_closes_every_other_child fuel frame win w :
  window (frames w frame) = Some win ->
  NoDup (childFrames (frames w frame)) ->
  (forall c, In c (childFrames (frames w frame)) -> LiveLeafOf w frame c) ->
  (forall parent, parentFrame (frames w frame) = Some parent ->
                  parent <> frame
                  /\ ~ In parent (childFrames (frames w frame))) ->
  List.length (childFrames (frames w frame)) + 3 <= fuel ->
  exists w',
    closeFrame fuel frame w = Normal tt w'
    /\ window (frames w' frame) = None
    /\ childFrames (frames w' frame)
       = alternate false (childFrames (frames w frame))
    /\ (forall c, In c (alternate true (childFrames (frames w frame))) ->
                  window (frames w' c) = None /\ page (frames w' c) = None)
    /\ (forall c, In c (alternate false (childFrames (frames w frame))) ->
                  frames w' c = frames w c)
    /\ (forall i, location (windows w' i) = location (windows w i)
                  /\ document_content (windows w' i)
                     = document_content (windows w i)).
Proof.
  intros Hwin Hnd Hleaf Hpar Hfuel.
  destruct fuel as [|fuel]; [lia|].
  destruct (detachFromParent_elsewhere frame w) as (w1 & E1 & Hsame).
  assert (Hframe1 : frames w1 frame = frames w frame).
  { apply Hsame. intro H. destruct (Hpar _ H) as [Hne _]. congruence. }
  assert (Hchild1 : forall c, In c (childFrames (frames w frame)) ->
                              frames w1 c = frames w c).
  { intros c Hc. apply Hsame. intro H. destruct (Hpar _ H) as [_ Hn]. auto. }
  destruct (forOfChildFrames_alternate fuel frame fuel []
              (childFrames (frames w frame)) w1)
    as (w2 & E2 & Hp2 & Hclosed & Hrest); try lia.
  { rewrite Hframe1. reflexivity. }
  { exact Hnd. }
  { intros c Hc. destruct (Hleaf c Hc) as (H1 & H2 & H3 & H4).
    unfold LiveLeafOf. rewrite (Hchild1 c Hc). auto. }
  simpl in E2, Hp2. rewrite Hframe1 in Hp2.
  assert (Hwin2 : window (frames w2 frame) = Some win)
    by (rewrite Hp2; exact Hwin).
  assert (E : closeFrame (S fuel) frame w = Normal tt (finalized frame win w2)).
  { rewrite (closeFrame_live _ _ _ _ Hwin).
    unfold bind at 1. rewrite E1. unfold bind at 1. rewrite E2.
    apply finalize_run. exact Hwin2. }
  exists (finalized frame win w2). split; [exact E|].
  assert (Hother : forall c, c <> frame ->
                             frames (finalized frame win w2) c = frames w2 c).
  { intros c Hc. simpl.
    destruct (Nat.eqb_spec c frame) as [Heq | _]; [contradiction | reflexivity]. }
  split; [simpl; rewrite !Nat.eqb_refl; reflexivity|].
  split; [simpl; rewrite !Nat.eqb_refl; simpl; rewrite Hp2; reflexivity|].
  split; [|split].
  - intros c Hc.
    destruct (Hleaf c (alternate_In _ _ _ Hc)) as (Hne & _).
    rewrite (Hother c Hne). apply Hclosed, Hc.
  - intros c Hc.
    destruct (Hleaf c (alternate_In _ _ _ Hc)) as (Hne & _).
    rewrite (Hother c Hne), (Hrest c Hne).
    + apply Hchild1. eapply alternate_In; eauto.
    + intro Hin. apply (alternate_disjoint _ c Hnd true Hin Hc).
  - intros i.
    destruct (closeFrame_NeverReopens _ _ _ _ E) as (_ & _ & Hwindows).
    destruct (Hwindows i) as (Hloc & _ & Hdoc). split; assumption.
Qed.

Lemma closeFrame_closes_every_other_child_witness :
  exists w',
    closeFrame 5 0 (site [] false) = Normal tt w'
    /\ window (frames w' 0) = None
    /\ childFrames (frames w' 0) = [2]
    /\ (forall c, In c [1] ->
                  window (frames w' c) = None /\ page (frames w' c) = None)
    /\ (forall c, In c [2] -> frames w' c = frames (site [] false) c)
    /\ (forall i, location (windows w' i) = location (windows (site [] false) i)
                  /\ document_content (windows w' i)
                     = document_content (windows (site [] false) i)).
Proof.
  apply (closeFrame_closes_every_other_child 5 0 0 (site [] false)).
  - reflexivity.
  - simpl. repeat constructor; simpl; intuition discriminate.
  - intros c [<- | [<- | []]]; repeat split; discriminate.
  - simpl. discriminate.
  - simpl. lia.
Defined.


(** ** goto after the closing loop *)

(** X5: the loop of lines 115 to 117 has the shape of the one in
    [closeFrame].  When [goto] replaces the window of a frame whose
    children are distinct live leaves, it forgets all of them at line
    119, but has closed only those at positions 0, 2, 4, ...: the
    children at positions 1, 3, 5, ... keep window and page, and still
    name the frame as their parent. *)
Theorem goto_leaves_every_other_child_open
    (URL_new : string -> option string -> option URLRecord)
    (fetch : WinId -> string -> RequestInit -> Error + Response)
    (whileFetching whileReading : World -> World)
    (windowClass : FrameId -> ConsoleId -> Window)
    fuel w frame win p input options :
  window (frames w frame) = Some win ->
  page (frames w frame) = Some p ->
  NoDup (childFrames (frames w frame)) ->
  (forall c, In c (childFrames (frames w frame)) -> LiveLeafOf w frame c) ->
  String.prefix "about:"
    (if String.eqb input EmptyString then "about:blank" else input) = true ->
  notEligible URL_new frame
    (if String.eqb input EmptyString then "about:blank" else input) w
  = Normal false w ->
  List.length (childFrames (frames w frame)) + 2 <= fuel ->
  exists w',
    goto URL_new fetch whileFetching whileReading windowClass fuel frame input
      options w = Normal None w'
    /\ childFrames (frames w' frame) = []
    /\ (forall c, In c (alternate true (childFrames (frames w frame))) ->
                  window (frames w' c) = None /\ page (frames w' c) = None)
    /\ (forall c, In c (alternate false (childFrames (frames w frame))) ->
                  frames w' c = frames w c).
Proof.
  intros Hwin Hp Hnd Hleaf Habout Hnot Hfuel.
  destruct (forOfChildFrames_alternate fuel frame fuel []
              (childFrames (frames w frame)) w)
    as (w2 & E2 & Hp2 & Hclosed & Hrest); try lia; auto.
  simpl in E2, Hp2.
  destruct (goto_after_teardown URL_new fetch whileFetching whileReading
              windowClass fuel w frame input options _ w2 win p
              (getRelativeURL_pseudo URL_new frame input w Habout)
              (about_not_javascript _ Habout) Hnot E2)
    as (w3 & E & Hother & Hch & _).
  { rewrite Hp2. exact Hwin. }
  { rewrite Hp2. exact Hp. }
  rewrite Habout, orb_true_r in E.
  exists w3. split; [exact E|]. split; [exact Hch|]. split.
  - intros c Hc.
    destruct (Hleaf c (alternate_In _ _ _ Hc)) as (Hne & _).
    rewrite (Hother c Hne). apply Hclosed, Hc.
  - intros c Hc.
    destruct (Hleaf c (alternate_In _ _ _ Hc)) as (Hne & _).
    rewrite (Hother c Hne). apply (Hrest c Hne).
    intro Hin. apply (alternate_disjoint _ c Hnd true Hin Hc).
Qed.

Lemma goto_leaves_every_other_child_open_witness :
  exists w',
    goto nodeURL offline quiet quiet blankWindow 5 0 "about:blank" None
      (site [] false)
    = Normal None w'
    /\ childFrames (frames w' 0) = []
    /\ (forall c, In c [1] ->
                  window (frames w' c) = None /\ page (frames w' c) = None)
    /\ (forall c, In c [2] -> frames w' c = frames (site [] false) c).
Proof.
  apply (goto_leaves_every_other_child_open nodeURL offline quiet quiet
           blankWindow 5 (site [] false) 0 0 0 "about:blank" None).
  - reflexivity.
  - reflexivity.
  - simpl. repeat constructor; simpl; intuition discriminate.
  - intros c [<- | [<- | []]]; repeat split; discriminate.
  - reflexivity.
  - reflexivity.
  - simpl. lia.
Defined.

(** ** goto: the remaining outcomes *)

(** X6: a fetch and a body read that both resolve.  Before it is
    suspended, [goto] has closed the old window, put the frame on a new
    one without children, moved its location to the target, started one
    task on it and made one fetch, with the referrer and policy of the
    options.  When it resumes, it reads [frame.window] again: if the
    frame has a window, the body is written into the document of that
    window, the task is ended and the response returned; if the frame
    was closed meanwhile, line 160 raises out of [goto] and the task is
    never ended.  When nothing else ran meanwhile, the frame is on the
    new window at the target, the body is what was written into its
    document, and the trace of the call holds one fetch, one
    [startTask] and one [endTask] of the new window, and no error. *)
Theorem goto_installs_content
    (URL_new : string -> option string -> option URLRecord)
    (fetch : WinId -> string -> RequestInit -> Error + Response)
    (whileFetching whileReading : World -> World)
    (windowClass : FrameId -> ConsoleId -> Window)
    depth width fuel w frame win p input options target l response body :
  TreeShaped depth width w -> depth frame + width + 2 <= fuel ->
  window (frames w frame) = Some win ->
  win < nextWindow w ->
  page (frames w frame) = Some p ->
  getRelativeURL URL_new frame input w = Normal target w ->
  String.prefix "javascript:" target = false ->
  String.prefix "about:" target = false ->
  target <> EmptyString ->
  notEligible URL_new frame target w = Normal false w ->
  URL_new target None = Some l ->
  fetch (nextWindow w) target (gotoInit options) = inr response ->
  text response = inr body ->
  exists suspended evs,
    window (frames suspended frame) = Some (nextWindow w)
    /\ childFrames (frames suspended frame) = []
    /\ closed (windows suspended win) = true
    /\ location (windows suspended (nextWindow w)) = l
    /\ log suspended
       = (log w ++ evs
            ++ [EvStartTask (nextWindow w);
                EvFetch (nextWindow w) target (gotoInit options)])%list
    /\ Forall teardownEvent evs
    /\ (forall win',
          window (frames (whileReading (whileFetching suspended)) frame)
          = Some win' ->
          goto URL_new fetch whileFetching whileReading windowClass fuel frame
            input options w
          = Normal (Some response)
              (emit (EvEndTask (nextWindow w))
                 (updWindow win' (setDocumentContent body)
                    (whileReading (whileFetching suspended)))))
    /\ (window (frames (whileReading (whileFetching suspended)) frame) = None ->
        goto URL_new fetch whileFetching whileReading windowClass fuel frame
          input options w
        = Throws nullDereference (whileReading (whileFetching suspended)))
    /\ (whileReading (whileFetching suspended) = suspended ->
        exists w' trace,
          goto URL_new fetch whileFetching whileReading windowClass fuel frame
            input options w
          = Normal (Some response) w'
          /\ window (frames w' frame) = Some (nextWindow w)
          /\ childFrames (frames w' frame) = []
          /\ frameUrl frame w' = Normal (href l) w'
          /\ document_content (windows w' (nextWindow w)) = body
          /\ closed (windows w' win) = true
          /\ log w' = (log w ++ trace)%list
          /\ In (EvFetch (nextWindow w) target (gotoInit options)) trace
          /\ fetchesPerformed trace = 1
          /\ tasksStarted (nextWindow w) trace = 1
          /\ tasksEnded (nextWindow w) trace = 1
          /\ (forall i, errorsDispatched i trace = [])).
Proof.
  intros Hw Hfuel Hwin Halloc Hp Hres Hjs Habout Hne Hnot Hl Hfetch Htext.
  destruct (goto_suspends URL_new fetch whileFetching whileReading windowClass
              depth width fuel w frame win p input options target l
              Hw Hfuel Hwin Hp Hres Hjs Habout Hne Hnot Hl)
    as (w3 & evs & E & Hwin3 & _ & _ & Hch & _ & Hclosed & _ & Hlog & Hevs).
  cbv zeta in E. rewrite Hfetch, Htext in E.
  assert (Hold : closed (windows (fetching (nextWindow w) l target options w3)
                           win) = true).
  { simpl. destruct (Nat.eqb_spec win (nextWindow w)) as [Heq | _]; [lia|].
    apply Hclosed. lia. }
  assert (Hloc : location (windows (fetching (nextWindow w) l target options
                                      w3) (nextWindow w)) = l).
  { simpl. rewrite Nat.eqb_refl. reflexivity. }
  set (suspended := fetching (nextWindow w) l target options w3) in *.
  assert (Hsusp : window (frames suspended frame) = Some (nextWindow w))
    by exact Hwin3.
  assert (Hchs : childFrames (frames suspended frame) = []) by exact Hch.
  assert (Hlogs : log suspended
                  = (log w ++ evs
                       ++ [EvStartTask (nextWindow w);
                           EvFetch (nextWindow w) target (gotoInit options)])%list).
  { unfold suspended, fetching. simpl. rewrite Hlog, <- !app_assoc.
    reflexivity. }
  clearbody suspended.
  exists suspended, evs.
  split; [exact Hsusp|]. split; [exact Hchs|]. split; [exact Hold|].
  split; [exact Hloc|]. split; [exact Hlogs|]. split; [exact Hevs|].
  split; [|split].
  - intros win' Hwin'. rewrite E. apply installContent_live. exact Hwin'.
  - intros Hnone. rewrite E. apply installContent_closed. exact Hnone.
  - intros Hquiet. rewrite Hquiet in E.
    rewrite (installContent_live frame (nextWindow w) response body
               (nextWindow w) suspended Hsusp) in E.
    eexists.
    exists (evs ++ [EvStartTask (nextWindow w);
                    EvFetch (nextWindow w) target (gotoInit options);
                    EvEndTask (nextWindow w)])%list.
    split; [exact E|].
    split; [exact Hsusp|]. split; [exact Hchs|].
    split.
    { rewrite (frameUrl_live frame (nextWindow w)) by exact Hsusp.
      simpl. rewrite Nat.eqb_refl. simpl. rewrite Hloc. reflexivity. }
    split; [simpl; rewrite Nat.eqb_refl; reflexivity|].
    split.
    { simpl. destruct (Nat.eqb_spec win (nextWindow w)) as [Heq | _]; [lia|].
      exact Hold. }
    split; [simpl; rewrite Hlogs, <- !app_assoc; reflexivity|].
    split; [apply in_or_app; right; simpl; auto|].
    rewrite fetchesPerformed_app, tasksStarted_app, tasksEnded_app.
    destruct (teardown_trace evs (nextWindow w) Hevs) as (-> & -> & _ & ->).
    unfold fetchesPerformed, tasksStarted, tasksEnded. simpl.
    rewrite !Nat.eqb_refl. simpl. repeat (split; [reflexivity|]).
    intros i. rewrite errorsDispatched_app.
    destruct (teardown_trace evs i Hevs) as (_ & _ & -> & _). reflexivity.
Qed.

Lemma goto_installs_content_witness :
  exists w' trace,
    goto nodeURL
      (fun _ u _ => inr {| responseURL := u; text := inr "<p>y</p>" |})
      quiet quiet blankWindow 5 0 "/y" None (site [] false)
    = Normal (Some {| responseURL := "https://a.test/y";
                      text := inr "<p>y</p>" |}) w'
    /\ frameUrl 0 w' = Normal "https://a.test/y" w'
    /\ document_content (windows w' 3) = "<p>y</p>"
    /\ log w' = trace
    /\ tasksStarted 3 trace = 1 /\ tasksEnded 3 trace = 1.
Proof.
  destruct (goto_installs_content nodeURL
              (fun _ u _ => inr {| responseURL := u; text := inr "<p>y</p>" |})
              quiet quiet blankWindow siteDepth 2 5 (site [] false) 0 0 0 "/y"
              None "https://a.test/y"
              {| href := "https://a.test/y"; origin := "https://a.test";
                 hostname := "a.test" |}
              {| responseURL := "https://a.test/y"; text := inr "<p>y</p>" |}
              "<p>y</p>" (site_TreeShaped [] false))
    as (suspended & evs & _ & _ & _ & _ & _ & _ & _ & _ & Hquiet);
    [simpl; lia | reflexivity | simpl; lia | reflexivity | reflexivity
    | reflexivity | reflexivity | discriminate | reflexivity | reflexivity
    | reflexivity | reflexivity |].
  destruct (Hquiet eq_refl)
    as (w' & trace & E & _ & _ & Hurl & Hdoc & _ & Hlog & _ & _ & Hs & He & _).
  exists w', trace. repeat split; auto.
Defined.

(** X7: resolution comes first.  On a live frame, an input that the URL
    constructor refuses makes [goto] throw the [DOMException] of
    [getRelativeURL], before any policy check or teardown: the store is
    the one [goto] was given, whatever the policy. *)
Theorem goto_propagates_resolution_failure
    (URL_new : string -> option string -> option URLRecord)
    (fetch : WinId -> string -> RequestInit -> Error + Response)
    (whileFetching whileReading : World -> World)
    (windowClass : FrameId -> ConsoleId -> Window)
    fuel w frame win input options :
  window (frames w frame) = Some win ->
  input <> EmptyString ->
  String.prefix "about:" input = false ->
  String.prefix "javascript:" input = false ->
  URL_new input (Some (href (location (windows w win)))) = None ->
  exists message,
    goto URL_new fetch whileFetching whileReading windowClass fuel frame input
      options w
    = Throws (DOMException message uriMismatchError) w.
Proof.
  intros Hwin Hne Habout Hjs Hfail.
  unfold goto, bind at 1, getRelativeURL.
  destruct (String.eqb_spec input EmptyString) as [E | _]; [contradiction|].
  rewrite Habout, Hjs. simpl. rewrite Hwin, Hfail. unfold uriMismatch.
  destruct (negb _); eexists; reflexivity.
Qed.

Lemma goto_propagates_resolution_failure_witness :
  exists message,
    goto nodeURL offline quiet quiet blankWindow 5 0 "https://" None
      (site ["url-set-fallback"] false)
    = Throws (DOMException message uriMismatchError)
        (site ["url-set-fallback"] false).
Proof.
  apply (goto_propagates_resolution_failure nodeURL offline quiet quiet
           blankWindow 5 (site ["url-set-fallback"] false) 0 0 "https://"
           None);
    try reflexivity; discriminate.
Defined.

(** X8: a closed frame cannot navigate.  When the frame has neither
    window nor page, [goto] throws a [TypeError] for every input,
    pseudo-URLs included, and leaves the store as it was. *)
Theorem goto_closed_frame_throws
    (URL_new : string -> option string -> option URLRecord)
    (fetch : WinId -> string -> RequestInit -> Error + Response)
    (whileFetching whileReading : World -> World)
    (windowClass : FrameId -> ConsoleId -> Window)
    fuel w frame input options :
  window (frames w frame) = None ->
  page (frames w frame) = None ->
  goto URL_new fetch whileFetching whileReading windowClass fuel frame input
    options w
  = Throws nullDereference w.
Proof.
  intros Hwin Hp.
  unfold goto, bind at 1, getRelativeURL.
  destruct (String.prefix "about:" _ || String.prefix "javascript:" _) eqn:Epseudo.
  - unfold ret at 1.
    destruct (String.prefix "javascript:" _) eqn:Ejs.
    + unfold gotoJavaScript, frameSettings. run. rewrite Hp. reflexivity.
    + unfold notEligible, isDetachedMainFrame, isBrowserNavigationAllowed,
        frameSettings, frameUrl, frameWindow. run.
      destruct (frameClass (frames w frame)); simpl;
        rewrite ?Hp, ?Hwin; reflexivity.
  - rewrite Hwin. reflexivity.
Qed.

Lemma goto_closed_frame_throws_witness :
  goto nodeURL offline quiet quiet blankWindow 5 7 "about:blank" None
    (site [] false)
  = Throws nullDereference (site [] false).
Proof.
  apply (goto_closed_frame_throws nodeURL offline quiet quiet blankWindow 5
           (site [] false) 7 "about:blank" None); reflexivity.
Defined.

(** ** The javascript: branch *)

Lemma prefix_append p t : String.prefix p (p ++ t) = true.
Proof.
  induction p as [|a p IH]; cbn [String.prefix append]; [destruct t; reflexivity|].
  destruct (ascii_dec a a) as [_ | Hne]; [exact IH | congruence].
Qed.

Lemma length_append p t :
  String.length (p ++ t) = String.length p + String.length t.
Proof. induction p as [|a p IH]; simpl; [reflexivity | rewrite IH; reflexivity]. Qed.

Lemma substring_all t : substring 0 (String.length t) t = t.
Proof. induction t as [|a t IH]; simpl; [reflexivity | rewrite IH; reflexivity]. Qed.

Lemma substring_append p t :
  substring (String.length p) (String.length t) (p ++ t) = t.
Proof. induction p as [|a p IH]; simpl; [apply substring_all | exact IH]. Qed.

(** Removing the scheme from a [javascript:] URL leaves its code. *)
Lemma replace_javascript code :
  replace "javascript:" EmptyString ("javascript:" ++ code) = code.
Proof.
  unfold replace.
  assert (Hi : String.index 0 "javascript:" ("javascript:" ++ code) = Some 0).
  { change ("javascript:" ++ code)
      with (String "j" ("avascript:" ++ code)).
    cbn [String.index].
    change (String "j" ("avascript:" ++ code)) with ("javascript:" ++ code).
    rewrite prefix_append. reflexivity. }
  rewrite Hi, length_append.
  replace (String.length "javascript:" + String.length code
           - (0 + String.length "javascript:")) with (String.length code) by lia.
  change (0 + String.length "javascript:") with (String.length "javascript:").
  rewrite substring_append. destruct code; reflexivity.
Qed.

Lemma javascript_prefix_nonempty input :
  String.prefix "javascript:" input = true ->
  (if String.eqb input EmptyString then "about:blank" else input) = input.
Proof. intros H. destruct input; [discriminate H | reflexivity]. Qed.

(** X9: a [javascript:] URL is dispatched before the eligibility check.
    Whatever the navigation policy and the class of the frame, [goto]
    returns no content and keeps the frame's window, children and url.
    With script evaluation disabled it changes nothing at all;
    otherwise it opens one task on the gate of the frame's window and
    schedules one callback on the window of the page's main frame. *)
Theorem goto_javascript_schedules
    (URL_new : string -> option string -> option URLRecord)
    (fetch : WinId -> string -> RequestInit -> Error + Response)
    (whileFetching whileReading : World -> World)
    (windowClass : FrameId -> ConsoleId -> Window)
    fuel w frame p input options :
  String.prefix "javascript:" input = true ->
  page (frames w frame) = Some p ->
  (disableJavaScriptEvaluation
     (settings (browserOf w (browser (contextOf w (context (pageOf w p))))))
   = true ->
   goto URL_new fetch whileFetching whileReading windowClass fuel frame input
       options w = Normal None w)
  /\ (disableJavaScriptEvaluation
        (settings (browserOf w (browser (contextOf w (context (pageOf w p))))))
      = false ->
      forall win mainWin,
        window (frames w frame) = Some win ->
        window (frames w (mainFrame (pageOf w p))) = Some mainWin ->
        exists w',
          goto URL_new fetch whileFetching whileReading windowClass fuel frame input
       options w
          = Normal None w'
          /\ frames w' = frames w /\ windows w' = windows w
          /\ nextWindow w' = nextWindow w
          /\ log w' = (log w ++ [EvStartTask win])%list
          /\ timers w'
             = (timers w ++ [(mainWin, JavaScriptURL frame input win)])%list).
Proof.
  intros Hjs Hp.
  pose proof (javascript_prefix_nonempty input Hjs) as Hinput.
  assert (Hres : getRelativeURL URL_new frame input w = Normal input w).
  { unfold getRelativeURL. rewrite Hinput, Hjs, orb_true_r. reflexivity. }
  assert (Hgoto : goto URL_new fetch whileFetching whileReading windowClass fuel frame input
       options w
                  = gotoJavaScript frame input w).
  { unfold goto, bind at 1. rewrite Hres, Hjs. reflexivity. }
  rewrite Hgoto. clear Hgoto.
  split; intros Hdisabled.
  - unfold gotoJavaScript, bind at 1. rewrite (frameSettings_page _ _ _ Hp).
    rewrite Hdisabled. reflexivity.
  - intros win mainWin Hwin Hmain.
    unfold gotoJavaScript, bind at 1. rewrite (frameSettings_page _ _ _ Hp).
    rewrite Hdisabled. simpl.
    unfold frameWindow, framePage, startTask, setTimeout. run.
    rewrite Hwin. simpl. rewrite Hp. simpl. rewrite Hmain. simpl.
    eexists. split; [reflexivity|]. repeat split.
Qed.

Lemma goto_javascript_schedules_witness :
  exists w',
    goto nodeURL offline quiet quiet blankWindow 0 1 "javascript:void 0" None
      (site ["deny"] false) = Normal None w'
    /\ log w' = [EvStartTask 1]
    /\ timers w' = [(0, JavaScriptURL 1 "javascript:void 0" 1)].
Proof.
  destruct (goto_javascript_schedules nodeURL offline quiet quiet blankWindow 0
              (site ["deny"] false) 1 0 "javascript:void 0" None
              eq_refl eq_refl) as [_ H].
  destruct (H eq_refl 1 0 eq_refl eq_refl)
    as (w' & E & _ & _ & _ & Hlog & Htimers).
  exists w'. repeat split; assumption.
Defined.

(** X10: what the scheduled callback does when the timer fires on a
    live frame.  It evaluates the source-URL comment followed by the
    URL without its scheme in the frame's window.  If the code returns,
    or if error capturing is enabled, the callback ends the task that
    [goto] started, after dispatching the error of code that threw;
    with error capturing disabled, code that throws takes the callback
    with it and the task is not ended. *)
Theorem runTimerCallback_outcomes
    (evalCode : WinId -> string -> option Error)
    w frame win p target readyStateManager :
  window (frames w frame) = Some win ->
  page (frames w frame) = Some p ->
  runTimerCallback evalCode (JavaScriptURL frame target readyStateManager) w
  = let code := javascriptCode (href (location (windows w win))) target in
    let evaluated := emit (EvEval win code) w in
    match evalCode win code with
    | None => Normal tt (emit (EvEndTask readyStateManager) evaluated)
    | Some e =>
        if disableErrorCapturing
             (settings (browserOf w (browser (contextOf w (context (pageOf w p))))))
        then Throws e evaluated
        else Normal tt (emit (EvEndTask readyStateManager)
                          (emit (EvDispatchError win e) evaluated))
    end.
Proof.
  intros Hwin Hp.
  unfold runTimerCallback. unfold bind at 1.
  rewrite (frameUrl_live frame win w Hwin).
  unfold bind at 1. rewrite (frameSettings_page _ _ _ Hp).
  fold (javascriptCode (href (location (windows w win))) target).
  destruct (disableErrorCapturing _); unfold captureError, windowEval,
    dispatchError, endTask; run; rewrite Hwin; simpl;
    destruct (evalCode win _); simpl; rewrite ?Hwin; reflexivity.
Qed.

Lemma runTimerCallback_outcomes_witness :
  runTimerCallback throwingCode (JavaScriptURL 1 "javascript:throw 1" 1)
    (site [] false)
  = Normal tt
      (emit (EvEndTask 1)
         (emit (EvDispatchError 1 (OtherError "1"))
            (emit (EvEval 1 (javascriptCode "about:blank" "javascript:throw 1"))
               (site [] false)))).
Proof.
  apply (runTimerCallback_outcomes throwingCode (site [] false) 1 1 0
           "javascript:throw 1" 1); reflexivity.
Defined.

(** X11: the code that is evaluated for [javascript:] followed by some
    code is the source-URL comment, a line break and that code; only
    the leading scheme is removed, a later [javascript:] in the code
    stays. *)
Theorem javascriptCode_strips_scheme frameUrl code :
  javascriptCode frameUrl ("javascript:" ++ code)
  = "//# sourceURL=" ++ frameUrl ++ newline ++ code.
Proof. unfold javascriptCode. rewrite replace_javascript. reflexivity. Qed.

(** ** Eligibility *)

(** X12: an ordinary frame under a policy without [deny], [sameorigin]
    and [child-only] may navigate anywhere: the eligibility check
    accepts every target string without parsing it as a URL, and leaves
    the store as it was.  The check reads [frame.url] for its second
    argument, which raises on a frame that has no window. *)
Theorem notEligible_open_policy
    (URL_new : string -> option string -> option URLRecord)
    w frame p target :
  frameClass (frames w frame) = BrowserFrame ->
  page (frames w frame) = Some p ->
  ~ In "deny" (policyOf w p) ->
  ~ In "sameorigin" (policyOf w p) ->
  ~ In "child-only" (policyOf w p) ->
  notEligible URL_new frame target w
  = match window (frames w frame) with
    | Some _ => Normal false w
    | None => Throws nullDereference w
    end.
Proof.
  intros Hclass Hp Hdeny Hsame Hchild.
  apply includes_not_In in Hdeny, Hsame, Hchild.
  unfold notEligible, bind at 1, isDetachedMainFrame. rewrite Hclass.
  unfold frameUrl, frameWindow. run.
  destruct (window (frames w frame)) as [win|]; simpl; [|reflexivity].
  rewrite (isBrowserNavigationAllowed_page URL_new w frame p _ _ Hp). simpl.
  rewrite Hdeny, Hsame, Hchild. reflexivity.
Qed.

Lemma notEligible_open_policy_witness :
  notEligible nodeURL 0 "not a url" (site ["url-set-fallback"] false)
  = Normal false (site ["url-set-fallback"] false).
Proof.
  apply (notEligible_open_policy nodeURL (site ["url-set-fallback"] false)
           0 0 "not a url"); try reflexivity;
    simpl; intros [H | []]; discriminate H.
Defined.

(** X13: [isDetachedMainFrame] short-circuits on the class.  An
    ordinary frame is never a detached main frame, even closed, with
    no page to look at; a detached frame without page makes the test
    throw; a detached frame with a page is one exactly when the page's
    context is the browser's default context, the page is the first of
    that context, and the frame is the page's main frame. *)
Theorem isDetachedMainFrame_cases w frame :
  (frameClass (frames w frame) = BrowserFrame ->
   isDetachedMainFrame frame w = Normal false w)
  /\ (frameClass (frames w frame) = DetachedBrowserFrame ->
      page (frames w frame) = None ->
      isDetachedMainFrame frame w = Throws nullDereference w)
  /\ (forall p,
        frameClass (frames w frame) = DetachedBrowserFrame ->
        page (frames w frame) = Some p ->
        exists b,
          isDetachedMainFrame frame w = Normal b w
          /\ (b = true <->
              context (pageOf w p)
              = defaultContext
                  (browserOf w (browser (contextOf w (context (pageOf w p)))))
              /\ nth_error (pages (contextOf w (context (pageOf w p)))) 0
                 = Some p
              /\ mainFrame (pageOf w p) = frame)).
Proof.
  unfold isDetachedMainFrame. split; [|split].
  - intros ->. reflexivity.
  - intros -> ->. reflexivity.
  - intros p -> ->. run. eexists. split; [reflexivity|].
    destruct (pages (contextOf w (context (pageOf w p)))) as [|first rest];
      simpl; rewrite !andb_true_iff, !Nat.eqb_eq.
    + split.
      * intros [[_ H] _]. discriminate.
      * intros (_ & H & _). discriminate.
    + split.
      * intros [[H1 H2] H3]. repeat split; congruence.
      * intros (H1 & H2 & H3). repeat split; congruence.
Qed.

Lemma isDetachedMainFrame_cases_witness :
  isDetachedMainFrame 7 (site [] false) = Normal false (site [] false)
  /\ exists b,
       isDetachedMainFrame 0 detachedSite = Normal b detachedSite /\ b = true.
Proof.
  destruct (isDetachedMainFrame_cases (site [] false) 7) as (H1 & _ & _).
  destruct (isDetachedMainFrame_cases detachedSite 0) as (_ & _ & H3).
  split; [apply H1; reflexivity|].
  destruct (H3 0 eq_refl eq_refl) as (b & E & Hb).
  exists b. split; [exact E|]. apply Hb. repeat split.
Defined.

(** ** Frames without a window *)

(** X14: [getRelativeURL] reads the window only to resolve.  On a frame
    without window, the empty input still gives [about:blank] and a
    pseudo-URL is still returned as it is; any other input throws a
    [TypeError], not the [DOMException] of a failed resolution, since
    the handler itself reads the window's location. *)
Theorem getRelativeURL_without_window
    (URL_new : string -> option string -> option URLRecord)
    w frame input :
  window (frames w frame) = None ->
  getRelativeURL URL_new frame input w
  = if String.eqb input EmptyString then Normal "about:blank" w
    else if String.prefix "about:" input || String.prefix "javascript:" input
         then Normal input w
         else Throws nullDereference w.
Proof.
  intros Hwin. unfold getRelativeURL.
  destruct (String.eqb input EmptyString); [reflexivity|].
  destruct (String.prefix "about:" input || String.prefix "javascript:" input);
    [reflexivity|].
  rewrite Hwin. reflexivity.
Qed.

Lemma getRelativeURL_without_window_witness :
  getRelativeURL nodeURL 7 "/y" (site [] false)
  = Throws nullDereference (site [] false).
Proof.
  apply (getRelativeURL_without_window nodeURL (site [] false) 7 "/y").
  reflexivity.
Defined.

(** ** newFrame *)

(** X15: attaching and closing compose.  When the constructor returns a
    new live frame without children that the parent does not list yet,
    [newFrame] makes it the last child of the parent, with the parent
    as [parentFrame]; closing it again takes it out of the parent's
    [childFrames], which are then what they were before [newFrame], and
    leaves the frame without window and page. *)
Theorem newFrame_then_closeFrame
    (construct : FrameClass -> option PageId -> M FrameId)
    fuel w parent c w1 win :
  construct (frameClass (frames w parent)) (page (frames w parent)) w
  = Normal c w1 ->
  c <> parent ->
  ~ In c (childFrames (frames w1 parent)) ->
  window (frames w1 c) = Some win ->
  childFrames (frames w1 c) = [] ->
  exists w2 w3,
    newFrame construct parent w = Normal c w2
    /\ parentFrame (frames w2 c) = Some parent
    /\ childFrames (frames w2 parent)
       = (childFrames (frames w1 parent) ++ [c])%list
    /\ (forall g, g <> c -> g <> parent -> frames w2 g = frames w1 g)
    /\ closeFrame (S (S fuel)) c w2 = Normal tt w3
    /\ childFrames (frames w3 parent) = childFrames (frames w1 parent)
    /\ window (frames w3 c) = None /\ page (frames w3 c) = None.
Proof.
  intros Hc Hne Hfresh Hwin Hleaf.
  set (w2 := updFrame parent
               (fun p => setChildFrames (childFrames p ++ [c])%list p)
               (updFrame c (setParentFrame (Some parent)) w1)).
  assert (Hparent2 : frames w2 parent
                     = setChildFrames (childFrames (frames w1 parent) ++ [c])
                         (frames w1 parent)).
  { unfold w2. simpl. rewrite Nat.eqb_refl.
    destruct (Nat.eqb_spec parent c) as [Heq | _]; [congruence | reflexivity]. }
  assert (Hc2 : frames w2 c = setParentFrame (Some parent) (frames w1 c)).
  { unfold w2. simpl. rewrite Nat.eqb_refl.
    destruct (Nat.eqb_spec c parent) as [Heq | _]; [congruence | reflexivity]. }
  assert (Hother2 : forall g, g <> c -> g <> parent -> frames w2 g = frames w1 g).
  { intros g H1 H2. unfold w2. simpl.
    destruct (Nat.eqb_spec g parent); [contradiction|].
    destruct (Nat.eqb_spec g c); [contradiction | reflexivity]. }
  assert (E : newFrame construct parent w = Normal c w2).
  { unfold newFrame, bind at 1. rewrite Hc. reflexivity. }
  clearbody w2.
  pose proof (closeFrame_leaf fuel parent (childFrames (frames w1 parent)) c []
                win w2) as Hclose.
  rewrite Hc2, Hparent2 in Hclose. simpl in Hclose.
  specialize (Hclose Hwin Hne eq_refl Hleaf eq_refl Hfresh).
  exists w2. eexists. split; [exact E|].
  split; [rewrite Hc2; reflexivity|].
  split; [rewrite Hparent2; reflexivity|].
  split; [exact Hother2|].
  split; [exact Hclose|]. simpl. rewrite !Nat.eqb_refl. simpl.
  destruct (Nat.eqb_spec parent c) as [Heq | _]; [congruence|].
  rewrite app_nil_r. repeat split.
Qed.

Lemma newFrame_then_closeFrame_witness :
  exists w2 w3,
    newFrame constructThird 0 (site [] false) = Normal 3 w2
    /\ childFrames (frames w2 0) = [1; 2; 3]
    /\ closeFrame 2 3 w2 = Normal tt w3
    /\ childFrames (frames w3 0) = [1; 2]
    /\ window (frames w3 3) = None.
Proof.
  destruct (newFrame_then_closeFrame constructThird 0 (site [] false) 0 3
              (stateOf (constructThird BrowserFrame (Some 0) (site [] false))
                 (site [] false)) 3)
    as (w2 & w3 & E & _ & Hc2 & _ & Eclose & Hc3 & Hw3 & _);
    [reflexivity | discriminate | simpl; intuition discriminate
    | reflexivity | reflexivity |].
  exists w2, w3. repeat split; assumption.
Defined.

(** ** The first child *)

(** X16: on a tree, closing a live frame always closes its first child:
    the loop reaches position 0 before any child has removed itself,
    and nothing that follows gives a window back. *)
Theorem closeFrame_closes_first_child depth width fuel frame win c rest w :
  TreeShaped depth width w -> depth frame + width + 2 <= fuel ->
  window (frames w frame) = Some win ->
  childFrames (frames w frame) = c :: rest ->
  exists w',
    closeFrame fuel frame w = Normal tt w'
    /\ window (frames w' frame) = None
    /\ window (frames w' c) = None.
Proof.
  intros Hw Hfuel Hwin Hlist.
  destruct (closeFrame_Teardown depth width fuel frame w Hw Hfuel)
    as (w' & E & _ & Hclosed & _).
  exists w'. split; [exact E|]. split; [exact Hclosed|].
  destruct fuel as [|fuel]; [lia|].
  destruct (closeFrame_stages _ _ _ _ _ Hwin E)
    as (w1 & w2 & win2 & E1 & E2 & _ & ->).
  assert (Hself : ~ In frame (childFrames (frames w frame))).
  { intro Hin. destruct Hw as [Hd _]. specialize (Hd _ _ Hin). lia. }
  assert (Hlist1 : childFrames (frames w1 frame) = c :: rest).
  { revert E1. unfold detachFromParent.
    destruct (parentFrame (frames w frame)) as [parent|];
      [destruct (indexOf frame (childFrames (frames w parent))) as [i|] eqn:Ei |];
      intros E1; inversion E1; subst; auto.
    simpl. destruct (Nat.eqb_spec frame parent) as [<- | _]; [|exact Hlist].
    exfalso. destruct (indexOf_Some _ _ _ Ei) as (pre & post & Hsplit & _).
    apply Hself. rewrite Hsplit. apply in_or_app. right. left. reflexivity. }
  assert (Hw1 : TreeShaped depth width w1).
  { destruct (detachFromParent_Teardown depth frame w) as (w1' & E1' & T1).
    rewrite E1 in E1'. inversion E1'. subst.
    eapply TreeShaped_Teardown; eauto. }
  destruct fuel as [|fuel]; [discriminate E2|].
  cbn [forOfChildFrames] in E2. rewrite Hlist1 in E2. simpl nth_error in E2.
  cbv iota in E2.
  destruct (closeFrame_Teardown depth width (S fuel) c w1 Hw1)
    as (wc & Ec & _ & Hc & _).
  { destruct Hw as [Hd _].
    assert (depth c < depth frame) by (apply Hd; rewrite Hlist; left; reflexivity).
    lia. }
  rewrite Ec in E2.
  pose proof (forOfChildFrames_NeverReopens (closeFrame (S fuel)) frame
                (closeFrame_NeverReopens (S fuel)) _ _ _ _ E2) as (Hloop & _).
  destruct (finalized_NeverReopens frame win2 w2) as (Hfinal & _).
  apply Hfinal, Hloop, Hc.
Qed.

Lemma closeFrame_closes_first_child_witness :
  exists w',
    closeFrame 5 0 (site [] false) = Normal tt w'
    /\ window (frames w' 0) = None
    /\ window (frames w' 1) = None.
Proof.
  apply (closeFrame_closes_first_child siteDepth 2 5 0 0 1 [2] (site [] false)).
  - apply site_TreeShaped.
  - simpl. lia.
  - reflexivity.
  - reflexivity.
Defined.
